(** * kombat-vision: the dashboard's job orchestration and its API client

    A shallow embedding of the TypeScript front end:
    - [Api]: the fetch wrapper [apiRequest], the [ApiError] class and the
      methods of the exported [api] object (lib/api.ts);
    - [Ui]: the React state of [TacticalDashboard] and its setters, the
      progress observer passed to [api.pollProcessingStatus];
    - [Loop]: the browser event loop restricted to this program: user
      gestures, settled network requests and timers drive the handlers
      [onDrop], [handleVideoUpload], [handleStartProcessing] and the
      closure [poll] of [pollProcessingStatus].

    [TacticalDashboard] is embedded in its version that talks to the
    backend through [api] (the one with [backendConnected]).  One step of
    [Loop.step] is one task of the browser together with the promise
    callbacks it triggers; a request is in flight from its [fetch] until
    the code awaiting it resumes.

    JavaScript numbers are IEEE doubles.  A finite double is the rational
    it denotes: [Q] holds the progress percentage and other fractional
    data, [Z] counts and frame numbers, [N] HTTP status codes.  Where the
    code adds, subtracts, multiplies or divides fractions (the frame
    estimate of the progress observer, the progress of the simulated job,
    the targets of the skip buttons) the result is rounded to the nearest
    double, ties to even, by [Double.round]; the time display, which only
    takes the floor of a quotient and of a remainder, is computed exactly.
    Infinities, NaN and the sign of zero are not modelled. *)

From Stdlib Require Import ZArith NArith QArith Qround String Ascii List Bool Lia.
From Stdlib Require Import DecimalString Qminmax Qabs Qpower Lqa SpecFloat.
From ExtLib Require Import Structures.Monad Structures.MonadExc Data.Monads.EitherMonad.
Import ListNotations.
Import MonadNotation.

Local Open Scope monad_scope.
Local Open Scope string_scope.
Local Open Scope Z_scope.

Set Implicit Arguments.

(** Template literals print a number in decimal. *)
Definition show_N (n : N) : string := NilZero.string_of_uint (N.to_uint n).
Definition show_Z (z : Z) : string := NilZero.string_of_int (Z.to_int z).

(** [a || b] on strings: the empty string is falsy. *)
Definition or_else (a b : string) : string :=
  match a with
  | EmptyString => b
  | _ => a
  end.

(** [s.startsWith(p)]. *)
Definition startsWith (s p : string) : bool := String.prefix p s.

(* ================================================================== *)
(** ** Arithmetic on doubles *)

(** The finite doubles (binary64) are the rationals [m * 2 ^ e] with
    [|m| < 2 ^ 53] and [-1074 <= e <= 971].  Every operator of JavaScript
    gives the double nearest to the exact result, ties going to the even
    significand.  The largest exponent is not modelled: a result beyond
    the largest double, where JavaScript gives [Infinity], is rounded to 53
    bits all the same. *)
Module Double.

(** The exponent of the smallest positive double. *)
Definition emin : Z := -1074.

Definition pow2 (k : Z) : Q := (2 ^ k)%Q.

(** The integer part of the binary logarithm of a positive number. *)
Definition ilog2 (a : Q) : Z :=
  let k := Z.log2 (Qnum a) - Z.log2 (Z.pos (Qden a)) in
  if Qle_bool (pow2 k) a then k else k - 1.

(** The exponent of the unit in the last place of the doubles around [a]:
    53 bits of significand, and no exponent below [emin] (the subnormal
    numbers). *)
Definition exponent (a : Q) : Z := Z.max (ilog2 (Qabs a) - 52) emin.

(** The nearest integer, a tie going to the even one. *)
Definition rne (x : Q) : Z :=
  let f := Qfloor x in
  match (x - inject_Z f ?= 1 # 2)%Q with
  | Lt => f
  | Gt => f + 1
  | Eq => if Z.even f then f else f + 1
  end.

(** The double nearest to [q]. *)
Definition round (q : Q) : Q :=
  let e := exponent q in
  (inject_Z (rne (q / pow2 e)) * pow2 e)%Q.

(** [a + b], [a - b], [a * b] and [a / b] on doubles ([b] not zero). *)
Definition add (a b : Q) : Q := round (a + b).
Definition sub (a b : Q) : Q := round (a - b).
Definition mul (a b : Q) : Q := round (a * b).
Definition div (a b : Q) : Q := round (a / b).

(** The rationals that are doubles. *)
Definition representable (q : Q) : Prop := (round q == q)%Q.

End Double.

(** The operations of binary64 as the Standard Library specifies them
    ([SpecFloat]), to compare [Double] with. *)
Module Binary64.

Definition prec : Z := 53.
Definition emax : Z := 1024.

Definition of_Z (n : Z) : spec_float := binary_normalize prec emax n 0 false.

Definition add : spec_float -> spec_float -> spec_float := SFadd prec emax.
Definition sub : spec_float -> spec_float -> spec_float := SFsub prec emax.
Definition mul : spec_float -> spec_float -> spec_float := SFmul prec emax.
Definition div : spec_float -> spec_float -> spec_float := SFdiv prec emax.

(** The rational a finite float denotes. *)
Definition to_Q (x : spec_float) : option Q :=
  match x with
  | S754_zero _ => Some 0%Q
  | S754_finite s m e =>
      Some (inject_Z (if s then Z.neg m else Z.pos m) * Double.pow2 e)%Q
  | S754_infinity _ | S754_nan => None
  end.

(** Whether [x] is finite and denotes [q]. *)
Definition denotes (x : spec_float) (q : Q) : bool :=
  match to_Q x with
  | Some r => Qeq_bool r q
  | None => false
  end.

End Binary64.

Arguments Double.round : simpl never.
Arguments Double.add : simpl never.
Arguments Double.sub : simpl never.
Arguments Double.mul : simpl never.
Arguments Double.div : simpl never.

(* ================================================================== *)
(** ** The API client *)

Module Api.

(** *** Payloads of the backend (the exported interfaces) *)

Record ThermalSignature := {
  mean_temp : Q;
  max_temp : Q;
  area : Q
}.

Record DetectionResult := {
  bbox : Q * Q * Q * Q;
  confidence : Q;
  class_id : Z;
  class_name : string;
  thermal_signature : option ThermalSignature
}.

Record FrameDetection := {
  frame_number : Z;
  timestamp : Q;
  frame_detections : list DetectionResult;   (* detections *)
  count : Z
}.

Record CurrentVideo := {
  cv_filename : string;                      (* filename *)
  path : string;
  cv_size : Z;                               (* size *)
  uploaded_at : Q
}.

Record ProcessingStatus := {
  is_processing : bool;
  progress : Q;
  current_video : option CurrentVideo;
  detections_count : Z;
  slam_status : string
}.

Record Performance := {
  total_detections : Z;
  avg_fps : Q;
  avg_confidence : Q;
  processing_time_ms : Q;
  perf_frames_processed : Z;                 (* frames_processed *)
  video_duration_sec : Q
}.

Record DetectionSummary := {
  detections : list FrameDetection;
  total_count : Z;
  frames_processed : Z;
  video : option string;
  summary : list (string * (Z * Q));         (* class -> count, max_confidence *)
  performance : Performance
}.

(** Return types of [healthCheck], [uploadVideo] and [startProcessing]. *)
Record Health := { health_message : string; health_status : string }.

Record Uploaded := {
  up_message : string;
  filename : string;
  size : Z;
  up_status : string
}.

Record Started := {
  st_message : string;
  st_video : string;
  st_status : string;
  pipeline : string
}.

(** *** Exceptions *)

(** What the platform ([fetch], [Response.text], [Response.json]) throws:
    an [Error] instance with its message (a [TypeError], a [SyntaxError],
    ...) or a value that is not an [Error].  [ApiError] is private to the
    module, so the platform never throws one. *)
Inductive Foreign :=
| ErrorObject (message : string)
| NotAnError.

(** What a method of [api] throws. *)
Inductive Thrown :=
| ApiError (status : N) (message : string)   (* new ApiError(status, message) *)
| Platform (e : Foreign).

(** [error instanceof ApiError]. *)
Definition is_ApiError (e : Thrown) : bool :=
  match e with
  | ApiError _ _ => true
  | Platform _ => false
  end.

(** A settled promise of an [api] method: [inl] rejected, [inr] fulfilled. *)
Definition Promise : Type -> Type := sum Thrown.

#[local] Instance Monad_Promise : Monad Promise := Monad_either Thrown.
#[local] Instance Exception_Promise : MonadExc Thrown Promise := Exception_either Thrown.

(** *** Responses *)

Record Response (T : Type) := {
  status : N;
  text : Foreign + string;                   (* await response.text() *)
  json : Foreign + T                         (* await response.json() *)
}.

(** [response.ok]: the status is in the range 200-299. *)
Definition ok {T} (response : Response T) : bool :=
  ((200 <=? status response) && (status response <=? 299))%N.

(** What [await fetch(...)] gives: the transport fails, or a response. *)
Definition Fetched (T : Type) : Type := (Foreign + Response T)%type.

(** [await] of a platform promise inside an [api] method. *)
Definition await {A} (p : Foreign + A) : Promise A :=
  match p with
  | inl e => raise (Platform e)
  | inr a => ret a
  end.

(** [error instanceof Error ? error.message : fallback], for a value of
    the platform. *)
Definition foreign_message (e : Foreign) (fallback : string) : string :=
  match e with
  | ErrorObject m => m
  | NotAnError => fallback
  end.

(** [apiRequest], after the request was sent: [fetched] is what the
    awaited [fetch] call gave. *)
Definition apiRequest {T} (fetched : Fetched T) : Promise T :=
  catch
    (response <- await fetched ;;
     if negb (ok response) then
       errorText <- await (text response) ;;
       raise (ApiError (status response)
                (or_else errorText ("HTTP " ++ show_N (status response))))
     else
       await (json response))
    (fun error =>
       match error with
       | ApiError _ _ => raise error
       | Platform e =>
           raise (ApiError 0 ("Network error: " ++ foreign_message e "Unknown error"))
       end).

(** [api.uploadVideo], after the request was sent.  It calls [fetch]
    itself and has no [try]/[catch]. *)
Definition uploadVideo (fetched : Fetched Uploaded) : Promise Uploaded :=
  response <- await fetched ;;
  if negb (ok response) then
    errorText <- await (text response) ;;
    raise (ApiError (status response)
             (or_else errorText ("Upload failed: HTTP " ++ show_N (status response))))
  else
    await (json response).

(** The other methods return [apiRequest(...)]. *)
Definition healthCheck : Fetched Health -> Promise Health := apiRequest (T:=Health).
Definition startProcessing : Fetched Started -> Promise Started := apiRequest (T:=Started).
Definition getProcessingStatus : Fetched ProcessingStatus -> Promise ProcessingStatus :=
  apiRequest (T:=ProcessingStatus).
Definition getDetections : Fetched DetectionSummary -> Promise DetectionSummary :=
  apiRequest (T:=DetectionSummary).
Definition getFrameDetections : Fetched FrameDetection -> Promise FrameDetection :=
  apiRequest (T:=FrameDetection).

(** A 503 response with the body "busy", which is not JSON. *)
Definition Fetched_503 : Fetched Started :=
  inr {| status := 503; text := inr "busy";
         json := inl (ErrorObject "Unexpected token b in JSON") |}.

(** A 200 response whose body parses to [v]. *)
Definition ok_json {T} (body : string) (v : T) : Fetched T :=
  inr {| status := 200; text := inr body; json := inr v |}.

End Api.

(* ================================================================== *)
(** ** The React state of [TacticalDashboard] *)

Module Ui.

(** A browser [File]: its name, its size in bytes and its declared media
    type. *)
Record File := {
  name : string;
  size : Z;
  type : string
}.

Inductive Status := idle | processing | completed | error.

Inductive Variant := default | destructive.

Record Toast := {
  variant : Variant;
  title : string;
  description : string
}.

(** The [useState] cells of the component. *)
Record State := {
  uploadedVideo : option File;
  videoUrl : string;
  isProcessing : bool;
  progress : Q;
  currentFrame : Z;
  totalFrames : Z;
  detectedTargets : Z;
  status : Status;
  detectionSummary : option Api.DetectionSummary;
  backendConnected : bool
}.

Definition initial : State :=
  {| uploadedVideo := None; videoUrl := EmptyString; isProcessing := false;
     progress := 0; currentFrame := 0; totalFrames := 0; detectedTargets := 0;
     status := idle; detectionSummary := None; backendConnected := false |}.

(** [URL.createObjectURL(file)]: an opaque URL naming the file. *)
Definition createObjectURL (file : File) : string := "blob:" ++ name file.

Section Setters.
Variable d : State.

Definition setUploadedVideo (v : option File) : State :=
  {| uploadedVideo := v; videoUrl := videoUrl d; isProcessing := isProcessing d;
     progress := progress d; currentFrame := currentFrame d;
     totalFrames := totalFrames d; detectedTargets := detectedTargets d;
     status := status d; detectionSummary := detectionSummary d;
     backendConnected := backendConnected d |}.

Definition setVideoUrl (v : string) : State :=
  {| uploadedVideo := uploadedVideo d; videoUrl := v; isProcessing := isProcessing d;
     progress := progress d; currentFrame := currentFrame d;
     totalFrames := totalFrames d; detectedTargets := detectedTargets d;
     status := status d; detectionSummary := detectionSummary d;
     backendConnected := backendConnected d |}.

Definition setIsProcessing (v : bool) : State :=
  {| uploadedVideo := uploadedVideo d; videoUrl := videoUrl d; isProcessing := v;
     progress := progress d; currentFrame := currentFrame d;
     totalFrames := totalFrames d; detectedTargets := detectedTargets d;
     status := status d; detectionSummary := detectionSummary d;
     backendConnected := backendConnected d |}.

Definition setProgress (v : Q) : State :=
  {| uploadedVideo := uploadedVideo d; videoUrl := videoUrl d;
     isProcessing := isProcessing d; progress := v; currentFrame := currentFrame d;
     totalFrames := totalFrames d; detectedTargets := detectedTargets d;
     status := status d; detectionSummary := detectionSummary d;
     backendConnected := backendConnected d |}.

Definition setCurrentFrame (v : Z) : State :=
  {| uploadedVideo := uploadedVideo d; videoUrl := videoUrl d;
     isProcessing := isProcessing d; progress := progress d; currentFrame := v;
     totalFrames := totalFrames d; detectedTargets := detectedTargets d;
     status := status d; detectionSummary := detectionSummary d;
     backendConnected := backendConnected d |}.

Definition setTotalFrames (v : Z) : State :=
  {| uploadedVideo := uploadedVideo d; videoUrl := videoUrl d;
     isProcessing := isProcessing d; progress := progress d;
     currentFrame := currentFrame d; totalFrames := v;
     detectedTargets := detectedTargets d; status := status d;
     detectionSummary := detectionSummary d;
     backendConnected := backendConnected d |}.

Definition setDetectedTargets (v : Z) : State :=
  {| uploadedVideo := uploadedVideo d; videoUrl := videoUrl d;
     isProcessing := isProcessing d; progress := progress d;
     currentFrame := currentFrame d; totalFrames := totalFrames d;
     detectedTargets := v; status := status d;
     detectionSummary := detectionSummary d;
     backendConnected := backendConnected d |}.

Definition setStatus (v : Status) : State :=
  {| uploadedVideo := uploadedVideo d; videoUrl := videoUrl d;
     isProcessing := isProcessing d; progress := progress d;
     currentFrame := currentFrame d; totalFrames := totalFrames d;
     detectedTargets := detectedTargets d; status := v;
     detectionSummary := detectionSummary d;
     backendConnected := backendConnected d |}.

Definition setDetectionSummary (v : option Api.DetectionSummary) : State :=
  {| uploadedVideo := uploadedVideo d; videoUrl := videoUrl d;
     isProcessing := isProcessing d; progress := progress d;
     currentFrame := currentFrame d; totalFrames := totalFrames d;
     detectedTargets := detectedTargets d; status := status d;
     detectionSummary := v; backendConnected := backendConnected d |}.

Definition setBackendConnected (v : bool) : State :=
  {| uploadedVideo := uploadedVideo d; videoUrl := videoUrl d;
     isProcessing := isProcessing d; progress := progress d;
     currentFrame := currentFrame d; totalFrames := totalFrames d;
     detectedTargets := detectedTargets d; status := status d;
     detectionSummary := detectionSummary d; backendConnected := v |}.
End Setters.

(** The observer [handleStartProcessing] passes to
    [api.pollProcessingStatus].  [totalFrames] is the value the closure
    captured: the state cell as it was rendered when the handler ran. *)
Definition onProgress (totalFrames : Z) (status : Api.ProcessingStatus) (d : State) : State :=
  let d := setProgress d (Api.progress status) in
  let d := setDetectedTargets d (Api.detections_count status) in
  if 0 <? totalFrames then
    setCurrentFrame d
      (Qfloor (Double.mul (Double.div (Api.progress status) 100) (inject_Z totalFrames)))
  else d.

End Ui.

(* ================================================================== *)
(** ** The event loop: handlers, pending requests and timers *)

Module Loop.
Import Ui.

(** The requests the dashboard sends ([api.getFrameDetections] has no
    caller). *)
Inductive Request :=
| GET_root                                   (* api.healthCheck *)
| POST_upload_video (file : File)            (* api.uploadVideo *)
| POST_start_processing                      (* api.startProcessing *)
| GET_processing_status                      (* api.getProcessingStatus *)
| GET_detections.                            (* api.getDetections *)

(** The closure [poll] of one [pollProcessingStatus] call: the promise it
    settles (named by a number), and what it captured. *)
Record Poller := {
  poller_id : nat;
  intervalMs : N;
  observer_totalFrames : Z                   (* captured by onProgress *)
}.

(** The code suspended at an [await] of a request. *)
Inductive Awaiting :=
| checkBackend_await
| handleVideoUpload_await (file : File)
| handleStartProcessing_await (totalFrames : Z)
| poll_await (self : Poller)
| getDetections_await.

Record Timer := {
  due : N;                                   (* earliest time it may fire *)
  callback : Poller                          (* setTimeout(poll, intervalMs) *)
}.

(** What can be observed from outside the component, in order. *)
Inductive Obs :=
| Sent (id : nat) (r : Request)              (* fetch(...) called *)
| Settled (id : nat)                         (* the awaited request settled *)
| OnProgress (poller : nat) (s : Api.ProcessingStatus)
| Resolved (poller : nat) (s : Api.ProcessingStatus)
| Rejected (poller : nat) (e : Api.Thrown)
| Toasted (t : Toast)
| ConsoleError (msg : string).

Record World := {
  ui : State;
  pending : list (nat * Awaiting);           (* requests in flight *)
  timers : list (nat * Timer);
  now : N;                                   (* milliseconds *)
  nextId : nat;
  nextPoller : nat;
  trace : list Obs
}.

Definition init : World :=
  {| ui := initial; pending := []; timers := []; now := 0%N;
     nextId := 0%nat; nextPoller := 0%nat; trace := [] |}.

Fixpoint lookup {A} (id : nat) (l : list (nat * A)) : option A :=
  match l with
  | [] => None
  | (i, a) :: l' => if Nat.eqb i id then Some a else lookup id l'
  end.

Definition remove {A} (id : nat) (l : list (nat * A)) : list (nat * A) :=
  filter (fun e => negb (Nat.eqb (fst e) id)) l.

Section Primitives.
Variable w : World.

Definition log (o : Obs) : World :=
  {| ui := ui w; pending := pending w; timers := timers w; now := now w;
     nextId := nextId w; nextPoller := nextPoller w; trace := trace w ++ [o] |}.

Definition update (f : State -> State) : World :=
  {| ui := f (ui w); pending := pending w; timers := timers w; now := now w;
     nextId := nextId w; nextPoller := nextPoller w; trace := trace w |}.

(** [fetch]: the request goes out and the caller is suspended. *)
Definition fetch (r : Request) (k : Awaiting) : World :=
  {| ui := ui w; pending := (nextId w, k) :: pending w; timers := timers w;
     now := now w; nextId := S (nextId w); nextPoller := nextPoller w;
     trace := trace w ++ [Sent (nextId w) r] |}.

(** The request [id] settles and leaves the requests in flight. *)
Definition settle (id : nat) : World :=
  {| ui := ui w; pending := remove id (pending w); timers := timers w;
     now := now w; nextId := nextId w; nextPoller := nextPoller w;
     trace := trace w ++ [Settled id] |}.

Definition setTimeout (self : Poller) : World :=
  {| ui := ui w; pending := pending w;
     timers := (nextId w, {| due := (now w + intervalMs self)%N; callback := self |})
               :: timers w;
     now := now w; nextId := S (nextId w); nextPoller := nextPoller w;
     trace := trace w |}.

Definition clearTimer (id : nat) : World :=
  {| ui := ui w; pending := pending w; timers := remove id (timers w);
     now := now w; nextId := nextId w; nextPoller := nextPoller w;
     trace := trace w |}.

Definition elapse (ms : N) : World :=
  {| ui := ui w; pending := pending w; timers := timers w;
     now := (now w + ms)%N; nextId := nextId w; nextPoller := nextPoller w;
     trace := trace w |}.

Definition newPoller : World :=
  {| ui := ui w; pending := pending w; timers := timers w; now := now w;
     nextId := nextId w; nextPoller := S (nextPoller w); trace := trace w |}.
End Primitives.

Definition toast (v : Variant) (t d : string) (w : World) : World :=
  log w (Toasted {| variant := v; title := t; description := d |}).

(** [error instanceof Error ? error.message : fallback]. *)
Definition message_of (err : Api.Thrown) (fallback : string) : string :=
  match err with
  | Api.ApiError _ m => m
  | Api.Platform e => Api.foreign_message e fallback
  end.

(** *** VideoUpload and the upload handler *)

(** [handleVideoUpload], up to its [await]. *)
Definition handleVideoUpload (file : File) (w : World) : World :=
  if negb (backendConnected (ui w)) then
    toast destructive "Backend Unavailable"
      "Cannot upload video. Backend server is not running." w
  else
    fetch w (POST_upload_video file) (handleVideoUpload_await file).

(** [handleVideoUpload], from its [await] on. *)
Definition handleVideoUpload_resume (file : File) (r : Api.Promise Api.Uploaded)
    (w : World) : World :=
  match r with
  | inr uploadResult =>
      let w := update w (fun d =>
        let d := setUploadedVideo d (Some file) in
        let d := setVideoUrl d (createObjectURL file) in
        let d := setStatus d idle in
        let d := setProgress d 0 in
        let d := setCurrentFrame d 0 in
        let d := setDetectedTargets d 0 in
        setDetectionSummary d None) in
      toast default "Video Uploaded"
        (Api.filename uploadResult ++ " ready for CV/SLAM analysis") w
  | inl err =>
      toast destructive "Upload Failed" (message_of err "Failed to upload video") w
  end.

(** [onDrop] of [VideoUpload]; [onVideoUpload] is [handleVideoUpload]. *)
Definition onDrop (acceptedFiles : list File) (w : World) : World :=
  match acceptedFiles with
  | [] => w
  | file :: _ =>
      if startsWith (type file) "video/" then
        let w := handleVideoUpload file w in
        toast default "Video Uploaded" (name file ++ " ready for processing") w
      else
        toast destructive "Invalid File Type"
          "Please upload a video file (MP4, AVI, MOV, etc.)" w
  end.

(** *** Polling *)

(** [poll], up to its [await]. *)
Definition poll (self : Poller) (w : World) : World :=
  fetch w GET_processing_status (poll_await self).

(** [api.pollProcessingStatus(onProgress, intervalMs)]: a new promise and
    the first call of [poll]. *)
Definition pollProcessingStatus (totalFrames : Z) (ms : N) (w : World) : World :=
  let self := {| poller_id := nextPoller w; intervalMs := ms;
                 observer_totalFrames := totalFrames |} in
  poll self (newPoller w).

(** [getDetections], from the [await] on, in the [then] callback. *)
Definition getDetections_resume (r : Api.Promise Api.DetectionSummary) (w : World) : World :=
  match r with
  | inr detections =>
      let w := update w (fun d =>
        let d := setDetectionSummary d (Some detections) in
        let d := setDetectedTargets d (Api.total_count detections) in
        setTotalFrames d (Api.frames_processed detections)) in
      toast default "Processing Complete"
        ("Found " ++ show_Z (Api.total_count detections) ++ " targets across "
         ++ show_Z (Api.frames_processed detections) ++ " frames") w
  | inl _ => log w (ConsoleError "Failed to get final detections:")
  end.

(** [api.getDetections()], up to the [await] of its caller: the request
    goes out. *)
Definition getDetections (w : World) : World :=
  fetch w GET_detections getDetections_await.

(** The [then] callback of [handleStartProcessing], up to its [await]. *)
Definition onFulfilled (finalStatus : Api.ProcessingStatus) (w : World) : World :=
  let w := update w (fun d =>
    let d := setIsProcessing d false in
    let d := setStatus d completed in
    setProgress d 100) in
  getDetections w.

(** The [catch] callback of [handleStartProcessing]. *)
Definition onRejected (err : Api.Thrown) (w : World) : World :=
  let w := update w (fun d =>
    let d := setIsProcessing d false in
    setStatus d Ui.error) in
  toast destructive "Processing Failed" (message_of err "CV processing failed") w.

(** [poll], from its [await] on.  Settling the promise runs the callbacks
    [handleStartProcessing] attached to it before anything else happens. *)
Definition poll_resume (self : Poller) (r : Api.Promise Api.ProcessingStatus)
    (w : World) : World :=
  match r with
  | inr status =>
      let w := log w (OnProgress (poller_id self) status) in
      let w := update w (onProgress (observer_totalFrames self) status) in
      if negb (Api.is_processing status) then
        onFulfilled status (log w (Resolved (poller_id self) status))
      else
        setTimeout w self
  | inl err =>
      onRejected err (log w (Rejected (poller_id self) err))
  end.

(** *** Starting *)

(** [handleStartProcessing], up to its [await]. *)
Definition handleStartProcessing (w : World) : World :=
  match uploadedVideo (ui w) with
  | None =>
      toast destructive "No Video Loaded" "Please upload a video file first." w
  | Some _ =>
      if negb (backendConnected (ui w)) then
        toast destructive "Backend Unavailable"
          "Cannot start processing. Backend server is not running." w
      else
        fetch w POST_start_processing
          (handleStartProcessing_await (totalFrames (ui w)))
  end.

(** [handleStartProcessing], from its [await] on. *)
Definition handleStartProcessing_resume (totalFrames : Z) (r : Api.Promise Api.Started)
    (w : World) : World :=
  match r with
  | inr startResult =>
      let w := update w (fun d =>
        let d := setIsProcessing d true in
        let d := setStatus d processing in
        let d := setProgress d 0 in
        let d := setCurrentFrame d 0 in
        setDetectedTargets d 0) in
      let w := toast default "Processing Started"
                 (Api.pipeline startResult ++ " pipeline activated") w in
      pollProcessingStatus totalFrames 1000 w
  | inl err =>
      toast destructive "Failed to Start Processing"
        (message_of err "Could not start CV processing") w
  end.

(** *** The connectivity check of the mount effect *)

Definition checkBackend (w : World) : World := fetch w GET_root checkBackend_await.

Definition checkBackend_resume (r : Api.Promise Api.Health) (w : World) : World :=
  match r with
  | inr _ => update w (fun d => setBackendConnected d true)
  | inl _ =>
      let w := update w (fun d => setBackendConnected d false) in
      toast destructive "Backend Disconnected"
        "CV/SLAM processing backend is not available. Start the backend server." w
  end.

(** *** Events *)

(** What the browser delivers: the mount effect, gestures of the user, a
    request in flight settling with what [fetch] gave, time passing, a
    timer firing. *)
Inductive Event :=
| Mount
| Drop (acceptedFiles : list File)
| ClickStart
| HealthSettles (id : nat) (fetched : Api.Fetched Api.Health)
| UploadSettles (id : nat) (fetched : Api.Fetched Api.Uploaded)
| StartSettles (id : nat) (fetched : Api.Fetched Api.Started)
| StatusSettles (id : nat) (fetched : Api.Fetched Api.ProcessingStatus)
| DetectionsSettles (id : nat) (fetched : Api.Fetched Api.DetectionSummary)
| Elapse (ms : N)
| TimerFires (id : nat).

(** The start button of [ControlPanel]: rendered once a video is loaded,
    [disabled={isProcessing}]. *)
Definition startEnabled (d : State) : bool :=
  match uploadedVideo d with
  | Some _ => negb (isProcessing d)
  | None => false
  end.

(** One task of the event loop.  A settlement that matches no request in
    flight, or a timer that is not due, cannot happen and changes
    nothing. *)
Definition step (e : Event) (w : World) : World :=
  match e with
  | Mount => checkBackend w
  | Drop acceptedFiles => onDrop acceptedFiles w
  | ClickStart => if startEnabled (ui w) then handleStartProcessing w else w
  | HealthSettles id fetched =>
      match lookup id (pending w) with
      | Some checkBackend_await =>
          checkBackend_resume (Api.healthCheck fetched) (settle w id)
      | _ => w
      end
  | UploadSettles id fetched =>
      match lookup id (pending w) with
      | Some (handleVideoUpload_await file) =>
          handleVideoUpload_resume file (Api.uploadVideo fetched) (settle w id)
      | _ => w
      end
  | StartSettles id fetched =>
      match lookup id (pending w) with
      | Some (handleStartProcessing_await totalFrames) =>
          handleStartProcessing_resume totalFrames (Api.startProcessing fetched)
            (settle w id)
      | _ => w
      end
  | StatusSettles id fetched =>
      match lookup id (pending w) with
      | Some (poll_await self) =>
          poll_resume self (Api.getProcessingStatus fetched) (settle w id)
      | _ => w
      end
  | DetectionsSettles id fetched =>
      match lookup id (pending w) with
      | Some getDetections_await =>
          getDetections_resume (Api.getDetections fetched) (settle w id)
      | _ => w
      end
  | Elapse ms => elapse w ms
  | TimerFires id =>
      match lookup id (timers w) with
      | Some t => if (due t <=? now w)%N then poll (callback t) (clearTimer w id) else w
      | None => w
      end
  end.

Definition run (w : World) (es : list Event) : World :=
  fold_left (fun w e => step e w) es w.

(** *** Projections of a trace *)

Definition sent (tr : list Obs) : list Request :=
  flat_map (fun o => match o with Sent _ r => [r] | _ => [] end) tr.

Definition toasts (tr : list Obs) : list Toast :=
  flat_map (fun o => match o with Toasted t => [t] | _ => [] end) tr.

(** The statuses [onProgress] was called with by the poller [p]. *)
Definition snapshots (p : nat) (tr : list Obs) : list Api.ProcessingStatus :=
  flat_map (fun o => match o with
                     | OnProgress q s => if Nat.eqb q p then [s] else []
                     | _ => []
                     end) tr.

(** The settlements of the promise of the poller [p]. *)
Definition outcomes (p : nat) (tr : list Obs) : list (Api.Promise Api.ProcessingStatus) :=
  flat_map (fun o => match o with
                     | Resolved q s => if Nat.eqb q p then [inr s] else []
                     | Rejected q e => if Nat.eqb q p then [inl e] else []
                     | _ => []
                     end) tr.

(** The [GET /detections] requests among the requests sent. *)
Definition detection_requests (tr : list Obs) : nat :=
  length (filter (fun r => match r with GET_detections => true | _ => false end)
            (sent tr)).

(** What was observed after the first [n] observations. *)
Definition since (n : nat) (tr : list Obs) : list Obs := skipn n tr.

(** The status requests of the poller [p] in flight. *)
Definition awaits_status (p : nat) (k : nat * Awaiting) : bool :=
  match snd k with
  | poll_await self => Nat.eqb (poller_id self) p
  | _ => false
  end.

Definition in_flight (p : nat) (w : World) : nat :=
  length (filter (awaits_status p) (pending w)).

(** The timers of the poller [p] that have not fired. *)
Definition sleeps (p : nat) (t : nat * Timer) : bool :=
  Nat.eqb (poller_id (callback (snd t))) p.

Definition sleeping (p : nat) (w : World) : nat :=
  length (filter (sleeps p) (timers w)).

(** Every poller has at most one status request in flight or one timer
    pending, and the pollers not yet created have none. *)
Definition one_at_a_time (w : World) : Prop :=
  forall p, (in_flight p w + sleeping p w <= 1 /\
             (nextPoller w <= p -> in_flight p w + sleeping p w = 0))%nat.
End Loop.

(* ================================================================== *)
(** ** A backend that answers a poller from a script *)

Module Backend.
Import Ui Loop.

(** The status request of the poller [p] in flight, if any. *)
Definition request_of (p : nat) (w : World) : option nat :=
  match filter (awaits_status p) (pending w) with
  | [] => None
  | (id, _) :: _ => Some id
  end.

(** The pending timer of the poller [p], if any. *)
Definition timer_of (p : nat) (w : World) : option (nat * Timer) :=
  match filter (sleeps p) (timers w) with
  | [] => None
  | t :: _ => Some t
  end.

(** The backend answers the status requests of the poller [p] from
    [script], in order: each entry is what the awaited [fetch] of one
    request gives.  Between two answers the poll interval passes and the
    timer fires.  Only requests that were sent are answered: once no
    request of [p] is in flight the rest of the script is never used. *)
Fixpoint serve (p : nat) (script : list (Api.Fetched Api.ProcessingStatus)) (w : World)
    : World :=
  match script with
  | [] => w
  | fetched :: rest =>
      match request_of p w with
      | None => w
      | Some id =>
          let w := step (StatusSettles id fetched) w in
          match timer_of p w with
          | Some (t, timer) =>
              serve p rest (run w [Elapse (intervalMs (callback timer)); TimerFires t])
          | None => serve p rest w
          end
      end
  end.

(** The statuses a script delivers, up to and including the first one that
    reports processing stopped, or up to the first failed request. *)
Fixpoint delivered (script : list (Api.Fetched Api.ProcessingStatus))
    : list Api.ProcessingStatus :=
  match script with
  | [] => []
  | fetched :: rest =>
      match Api.getProcessingStatus fetched with
      | inr s => s :: (if Api.is_processing s then delivered rest else [])
      | inl _ => []
      end
  end.

(** The terminal outcome of a script: the first status that reports
    processing stopped, or the error of the first failed request. *)
Fixpoint outcome (script : list (Api.Fetched Api.ProcessingStatus))
    : option (Api.Promise Api.ProcessingStatus) :=
  match script with
  | [] => None
  | fetched :: rest =>
      match Api.getProcessingStatus fetched with
      | inr s => if Api.is_processing s then outcome rest else Some (inr s)
      | inl e => Some (inl e)
      end
  end.

End Backend.

(* ================================================================== *)
(** ** The progress estimator as the specification words it *)

Module Spec.

Inductive FrameIndex :=
| unknown
| frame (n : Z).

(** [floor(progressPercent / 100 * totalFrames)], clamped to
    [[0, totalFrames]]; "unknown" when [totalFrames] is 0. *)
Definition estimateFrame (progressPercent : Q) (totalFrames : Z) : FrameIndex :=
  if totalFrames =? 0 then unknown
  else frame (Z.max 0 (Z.min totalFrames
                (Qfloor (progressPercent / 100 * inject_Z totalFrames)))).

End Spec.

(* ================================================================== *)
(** ** Sample data and sample runs *)

Module Scenario.
Import Ui Loop.

Definition clip : File :=
  {| name := "walk.mp4"; size := 1048576; type := "video/mp4" |}.

Definition second_clip : File :=
  {| name := "roof.mov"; size := 2097152; type := "video/quicktime" |}.

Definition empty_clip : File :=
  {| name := "empty.mp4"; size := 0; type := "video/mp4" |}.

Definition notes : File :=
  {| name := "notes.txt"; size := 12; type := "text/plain" |}.

Definition health_ok : Api.Fetched Api.Health :=
  Api.ok_json "{..}"
    {| Api.health_message := "CV/SLAM backend"; Api.health_status := "operational" |}.

Definition upload_ok (f : File) : Api.Fetched Api.Uploaded :=
  Api.ok_json "{..}"
    {| Api.up_message := "uploaded"; Api.filename := name f; Api.size := size f;
       Api.up_status := "ready" |}.

Definition start_ok : Api.Fetched Api.Started :=
  Api.ok_json "{..}"
    {| Api.st_message := "started"; Api.st_video := "walk.mp4";
       Api.st_status := "processing"; Api.pipeline := "thermal" |}.

(** [{is_processing, progress}] with the other fields filled in. *)
Definition status (running : bool) (percent : Q) : Api.ProcessingStatus :=
  {| Api.is_processing := running; Api.progress := percent;
     Api.current_video := None; Api.detections_count := 0;
     Api.slam_status := "active" |}.

Definition status_ok (s : Api.ProcessingStatus) : Api.Fetched Api.ProcessingStatus :=
  Api.ok_json "{..}" s.

Definition no_detections (frames : Z) : Api.DetectionSummary :=
  {| Api.detections := []; Api.total_count := 0; Api.frames_processed := frames;
     Api.video := Some "walk.mp4"; Api.summary := [];
     Api.performance :=
       {| Api.total_detections := 0; Api.avg_fps := 287; Api.avg_confidence := 0;
          Api.processing_time_ms := 1000; Api.perf_frames_processed := frames;
          Api.video_duration_sec := 10 |} |}.

Definition offline {T} : Api.Fetched T := inl (Api.ErrorObject "Failed to fetch").

(** The dashboard was mounted and the backend answered the probe. *)
Definition connected : World := run init [Mount; HealthSettles 0 health_ok].

(** A video was dropped and the backend acknowledged it. *)
Definition ready : World :=
  run connected [Drop [clip]; UploadSettles 1 (upload_ok clip)].

(** Start was clicked and acknowledged: the first status request of the
    poller 0 is in flight, as request 3. *)
Definition polling : World := run ready [ClickStart; StartSettles 2 start_ok].

(** The scripted status sequence: 10, 55, then stopped at 100. *)
Definition scripted : list Api.ProcessingStatus :=
  [status true 10; status true 55; status false 100].

(** The backend answers once, then the network fails. *)
Definition interrupted : list (Api.Fetched Api.ProcessingStatus) :=
  [status_ok (status true 10); offline; status_ok (status false 100)].

(** While the job is processing (one snapshot seen, the poller asleep on
    timer 4) another video is dropped and the backend accepts it. *)
Definition superseded : World :=
  run polling [StatusSettles 3 (status_ok (status true 10));
               Drop [second_clip]; UploadSettles 5 (upload_ok second_clip)].

(** Another video is dropped while a status request is in flight. *)
Definition reuploading : World := run polling [Drop [second_clip]].

(** Then the timer of the old poller fires and the backend answers. *)
Definition stale : World :=
  run superseded [Elapse 1000; TimerFires 4;
                  StatusSettles 6 (status_ok (status true 55))].

(** The backend reports 55 percent, then 10 percent. *)
Definition at_55 : World := run polling [StatusSettles 3 (status_ok (status true 55))].

Definition regressed : World :=
  run at_55 [Elapse 1000; TimerFires 4; StatusSettles 5 (status_ok (status true 10))].

(** The job completed and its summary was fetched. *)
Definition finished : World :=
  run polling [StatusSettles 3 (status_ok (status false 100));
               DetectionsSettles 4 (Api.ok_json "{..}" (no_detections 8450))].

(** Start is clicked twice before the backend acknowledges the first. *)
Definition double_start : World := run ready [ClickStart; ClickStart].

Definition double_polling : World :=
  run double_start [StartSettles 2 start_ok; StartSettles 3 start_ok].

(** The effect ran again with a video loaded, and its probe failed. *)
Definition outage : World := run ready [Mount; HealthSettles 2 offline].

(** The probe is still unanswered six seconds after the mount. *)
Definition slow_probe : World := run init [Mount; Elapse 6000].

(** It is answered then, a video is uploaded and start is clicked. *)
Definition late_start : World :=
  run slow_probe [HealthSettles 0 health_ok; Drop [clip];
                  UploadSettles 1 (upload_ok clip); ClickStart].

End Scenario.

(* ================================================================== *)
(** ** Display helpers of the API module *)

Module Display.

(** Class names are ASCII.  A [string] is a sequence of 8-bit characters;
    on the characters below 128 the functions here are the JavaScript
    ones. *)
Definition isAscii (s : string) : bool :=
  forallb (fun c => (N_of_ascii c <? 128)%N) (list_ascii_of_string s).

(** [c.toUpperCase()] on one ASCII character. *)
Definition toUpperCase (c : ascii) : ascii :=
  if ((97 <=? N_of_ascii c) && (N_of_ascii c <=? 122))%N
  then ascii_of_N (N_of_ascii c - 32)
  else c.

(** [s.split(sep)] for a separator of one character: never empty, the
    empty string gives one empty word. *)
Fixpoint split (sep : ascii) (s : string) : list string :=
  match s with
  | EmptyString => [EmptyString]
  | String c rest =>
      if Ascii.eqb c sep then EmptyString :: split sep rest
      else match split sep rest with
           | word :: words => String c word :: words
           | [] => [String c EmptyString]
           end
  end.

(** [word.charAt(0).toUpperCase() + word.slice(1)]. *)
Definition capitalize (word : string) : string :=
  match word with
  | EmptyString => EmptyString
  | String c rest => String (toUpperCase c) rest
  end.

(** [formatClassName]: split at underscores, capitalize, join with
    spaces. *)
Definition formatClassName (className : string) : string :=
  String.concat " " (map capitalize (split "_" className)).

Inductive ThreatLevel := high | medium | low.

Definition highThreat : list string :=
  ["hostile_personnel"; "hostile_vehicle"; "aircraft_threat"].

Definition mediumThreat : list string := ["equipment"].

(** [list.includes(s)]. *)
Definition includes (l : list string) (s : string) : bool :=
  existsb (String.eqb s) l.

Definition getThreatLevel (className : string) : ThreatLevel :=
  if includes highThreat className then high
  else if includes mediumThreat className then medium
  else low.

(** Whether the character [c] occurs in [s]. *)
Fixpoint occurs (c : ascii) (s : string) : bool :=
  match s with
  | EmptyString => false
  | String d rest => Ascii.eqb d c || occurs c rest
  end.

End Display.

(* ================================================================== *)
(** ** The time display and the skip buttons of [VideoPlayer] *)

Module Player.

(** [Math.trunc]: rounding toward zero. *)
Definition Qtrunc (x : Q) : Z := Z.quot (Qnum x) (Z.pos (Qden x)).

(** [x % y]: the remainder has the sign of [x]. *)
Definition rem (x y : Q) : Q := (x - y * inject_Z (Qtrunc (x / y)))%Q.

(** [s.padStart(n, pad)] for a pad of one character. *)
Definition padStart (n : nat) (pad : ascii) (s : string) : string :=
  string_of_list_ascii (repeat pad (n - String.length s)) ++ s.

(** [formatTime]. *)
Definition formatTime (time : Q) : string :=
  let minutes := Qfloor (time / 60) in
  let seconds := Qfloor (rem time 60) in
  show_Z minutes ++ ":" ++ padStart 2 "0" (show_Z seconds).


(** What the skip buttons assign to [videoRef.current.currentTime]:
    [Math.max(0, currentTime - 10)] and
    [Math.min(duration, currentTime + 10)]. *)
Definition skipBack (currentTime : Q) : Q := Qmax 0 (Double.sub currentTime 10).

Definition skipForward (duration currentTime : Q) : Q :=
  Qmin duration (Double.add currentTime 10).

End Player.

(* ================================================================== *)
(** ** The dashboard that simulates processing *)

(** The first version of [TacticalDashboard]: no backend; a start runs an
    interval that advances 25 frames per tick over 8450 frames and draws
    targets from [Math.random]. *)
Module Simulated.
Import Ui.

Record State := {
  uploadedVideo : option File;
  videoUrl : string;
  isProcessing : bool;
  progress : Q;
  currentFrame : Z;
  detectedTargets : Z;
  status : Status
}.

(** [useState(8450)], never set. *)
Definition totalFrames : Z := 8450.

Definition initial : State :=
  {| uploadedVideo := None; videoUrl := EmptyString; isProcessing := false;
     progress := 0; currentFrame := 0; detectedTargets := 0; status := idle |}.

(** The locals [frame] and [targets] of one call of
    [handleStartProcessing], which its interval callback updates. *)
Record Interval := {
  frame : Z;
  targets : Z
}.

Record World := {
  ui : State;
  intervals : list (nat * Interval);           (* setInterval handles *)
  exports : nat;                               (* pending export timeouts *)
  nextId : nat;
  toasts : list Toast
}.

Definition init : World :=
  {| ui := initial; intervals := []; exports := 0%nat; nextId := 0%nat; toasts := [] |}.

Definition toast (v : Variant) (t d : string) (w : World) : World :=
  {| ui := ui w; intervals := intervals w; exports := exports w; nextId := nextId w;
     toasts := toasts w ++ [{| variant := v; title := t; description := d |}] |}.

Definition update (f : State -> State) (w : World) : World :=
  {| ui := f (ui w); intervals := intervals w; exports := exports w;
     nextId := nextId w; toasts := toasts w |}.

Definition setInterval (w : World) : World :=
  {| ui := ui w;
     intervals := (nextId w, {| frame := 0; targets := 0 |}) :: intervals w;
     exports := exports w; nextId := S (nextId w); toasts := toasts w |}.

Definition clearInterval (id : nat) (w : World) : World :=
  {| ui := ui w; intervals := Loop.remove id (intervals w); exports := exports w;
     nextId := nextId w; toasts := toasts w |}.

(** The interval keeps running with its locals updated. *)
Definition keep (id : nat) (i : Interval) (w : World) : World :=
  {| ui := ui w; intervals := (id, i) :: Loop.remove id (intervals w);
     exports := exports w; nextId := nextId w; toasts := toasts w |}.

(** The export timeouts all run the same callback after the same delay, so
    the pending ones are counted. *)
Definition setExportTimeout (w : World) : World :=
  {| ui := ui w; intervals := intervals w; exports := S (exports w);
     nextId := nextId w; toasts := toasts w |}.

Definition exportTimeoutFired (w : World) : World :=
  {| ui := ui w; intervals := intervals w; exports := pred (exports w);
     nextId := nextId w; toasts := toasts w |}.

(** [handleVideoUpload]. *)
Definition handleVideoUpload (file : File) (w : World) : World :=
  update (fun d =>
    {| uploadedVideo := Some file; videoUrl := createObjectURL file;
       isProcessing := isProcessing d; progress := 0; currentFrame := 0;
       detectedTargets := 0; status := idle |}) w.

(** [onDrop] of [VideoUpload], with this [handleVideoUpload]. *)
Definition onDrop (acceptedFiles : list File) (w : World) : World :=
  match acceptedFiles with
  | [] => w
  | file :: _ =>
      if startsWith (type file) "video/" then
        toast default "Video Uploaded" (name file ++ " ready for processing")
          (handleVideoUpload file w)
      else
        toast destructive "Invalid File Type"
          "Please upload a video file (MP4, AVI, MOV, etc.)" w
  end.

(** [handleStartProcessing]. *)
Definition handleStartProcessing (w : World) : World :=
  match uploadedVideo (ui w) with
  | None => toast destructive "No Video Loaded" "Please upload a video file first." w
  | Some _ =>
      let w := update (fun d =>
        {| uploadedVideo := uploadedVideo d; videoUrl := videoUrl d;
           isProcessing := true; progress := progress d;
           currentFrame := currentFrame d; detectedTargets := detectedTargets d;
           status := processing |}) w in
      setInterval w
  end.

(** The callback of the interval, called with the locals of its closure
    and with what [Math.random()] returns. *)
Definition tick (id : nat) (i : Interval) (random : Q) (w : World) : World :=
  let frame := frame i + 25 in
  let progressPercent :=
    Double.mul (Double.div (inject_Z frame) (inject_Z totalFrames)) 100 in
  let detected := Qlt_le_dec (95 # 100) random in
  let targets := if detected then targets i + 1 else targets i in
  let w := update (fun d =>
    {| uploadedVideo := uploadedVideo d; videoUrl := videoUrl d;
       isProcessing := isProcessing d; progress := progressPercent;
       currentFrame := frame;
       detectedTargets := if detected then targets else detectedTargets d;
       status := status d |}) w in
  if totalFrames <=? frame then
    let w := clearInterval id w in
    let w := update (fun d =>
      {| uploadedVideo := uploadedVideo d; videoUrl := videoUrl d;
         isProcessing := false; progress := progress d;
         currentFrame := currentFrame d; detectedTargets := detectedTargets d;
         status := completed |}) w in
    toast default "Processing Complete"
      ("Detected " ++ show_Z targets ++ " potential targets in video analysis.") w
  else
    keep id {| frame := frame; targets := targets |} w.

(** [handleExportVideo]. *)
Definition handleExportVideo (w : World) : World :=
  let w := toast default "Export Started"
             "Generating annotated video with CV/SLAM overlays..." w in
  setExportTimeout w.

(** The callback of the export timeout. *)
Definition exportComplete (w : World) : World :=
  toast default "Export Complete" "Tactical video analysis ready for download." w.

Inductive Event :=
| Drop (acceptedFiles : list File)
| ClickStart
| Tick (id : nat) (random : Q)
| ClickExport
| ExportTimerFires.

(** The start button: rendered once a video is loaded,
    [disabled={isProcessing}]. *)
Definition startEnabled (d : State) : bool :=
  match uploadedVideo d with
  | Some _ => negb (isProcessing d)
  | None => false
  end.

(** The export button: [disabled={!canExport}], with
    [canExport={status === 'completed'}]. *)
Definition exportEnabled (d : State) : bool :=
  match uploadedVideo d, status d with
  | Some _, completed => true
  | _, _ => false
  end.

(** One task.  A cleared interval does not tick. *)
Definition step (e : Event) (w : World) : World :=
  match e with
  | Drop acceptedFiles => onDrop acceptedFiles w
  | ClickStart => if startEnabled (ui w) then handleStartProcessing w else w
  | Tick id random =>
      match Loop.lookup id (intervals w) with
      | Some i => tick id i random w
      | None => w
      end
  | ClickExport => if exportEnabled (ui w) then handleExportVideo w else w
  | ExportTimerFires =>
      match exports w with
      | O => w
      | S _ => exportComplete (exportTimeoutFired w)
      end
  end.

Definition run (w : World) (es : list Event) : World :=
  fold_left (fun w e => step e w) es w.

(** The interval [id] ticks once per draw of [randoms]. *)
Definition ticks (id : nat) (randoms : list Q) : list Event :=
  map (Tick id) randoms.

(** The draws above 0.95. *)
Definition hits (randoms : list Q) : Z :=
  Z.of_nat (length (filter (fun r => if Qlt_le_dec (95 # 100) r then true else false) randoms)).

(** The notifications with the title [t]. *)
Definition titled (t : string) (ts : list Toast) : nat :=
  length (filter (fun x => String.eqb (title x) t) ts).

End Simulated.

(* ================================================================== *)
(** ** Invariants of the event loop *)

Module Invariants.
Import Ui Loop.

(** The ids of [l] are distinct and were handed out before [next]. *)
Definition fresh_ids {A} (next : nat) (l : list (nat * A)) : Prop :=
  NoDup (map fst l) /\ Forall (fun e => (fst e < next)%nat) l.

Definition well_formed (w : World) : Prop :=
  fresh_ids (nextId w) (pending w) /\ fresh_ids (nextId w) (timers w).

(** A poller that was created is in exactly one phase (a request in
    flight, a timer pending, settled once); one that was not has no trace. *)
Definition accounted (w : World) : Prop :=
  forall p,
    ((p < nextPoller w ->
      length (outcomes p (trace w)) + in_flight p w + sleeping p w = 1) /\
     (nextPoller w <= p ->
      length (outcomes p (trace w)) + in_flight p w + sleeping p w = 0))%nat.

(** The promises resolved so far. *)
Definition resolutions (tr : list Obs) : nat :=
  length (flat_map (fun o => match o with Resolved _ _ => [o] | _ => [] end) tr).

(** The event delivers a detection summary. *)
Definition delivers_summary (e : Event) : bool :=
  match e with
  | DetectionsSettles _ fetched =>
      match Api.getDetections fetched with
      | inr _ => true
      | inl _ => false
      end
  | _ => false
  end.

(** The event is the failure of an upload, of a start or of the fetch of
    the summary. *)
Definition failed_request (e : Event) : bool :=
  match e with
  | UploadSettles _ fetched =>
      match Api.uploadVideo fetched with inl _ => true | inr _ => false end
  | StartSettles _ fetched =>
      match Api.startProcessing fetched with inl _ => true | inr _ => false end
  | DetectionsSettles _ fetched =>
      match Api.getDetections fetched with inl _ => true | inr _ => false end
  | _ => false
  end.

(** The frame count a suspended handler or poller captured. *)
Definition captured (k : Awaiting) : Z :=
  match k with
  | handleStartProcessing_await totalFrames => totalFrames
  | poll_await self => observer_totalFrames self
  | _ => 0
  end.

(** Until a summary arrives the frame count is 0 everywhere. *)
Definition no_frame_count (w : World) : Prop :=
  totalFrames (ui w) = 0 /\ currentFrame (ui w) = 0 /\
  Forall (fun e => captured (snd e) = 0) (pending w) /\
  Forall (fun t => observer_totalFrames (callback (snd t)) = 0) (timers w).

End Invariants.

(* ================================================================== *)
(** ** More sample runs *)

Module Samples.
Import Ui.

(** Mount, probe, upload, start and its acknowledgement. *)
Definition start_events : list Loop.Event :=
  [Loop.Mount; Loop.HealthSettles 0 Scenario.health_ok; Loop.Drop [Scenario.clip];
   Loop.UploadSettles 1 (Scenario.upload_ok Scenario.clip); Loop.ClickStart;
   Loop.StartSettles 2 Scenario.start_ok].

(** The backend reports 55 percent. *)
Definition halfway_events : list Loop.Event :=
  start_events ++ [Loop.StatusSettles 3 (Scenario.status_ok (Scenario.status true 55))].

(** The backend reports that processing stopped. *)
Definition completed_events : list Loop.Event :=
  start_events ++ [Loop.StatusSettles 3 (Scenario.status_ok (Scenario.status false 100))].

(** Afterwards: the summary arrives, time passes, stray events. *)
Definition late_events : list Loop.Event :=
  [Loop.DetectionsSettles 4 (Api.ok_json "{..}" (Scenario.no_detections 8450));
   Loop.Elapse 1000; Loop.TimerFires 4;
   Loop.StatusSettles 3 (Scenario.status_ok (Scenario.status true 10))].

(** A video was dropped and its upload is in flight, as request 1. *)
Definition uploading : Loop.World :=
  Loop.run Scenario.connected [Loop.Drop [Scenario.clip]].

(** The simulated dashboard after an upload and a start. *)
Definition simulated_started : Simulated.World :=
  Simulated.run Simulated.init [Simulated.Drop [Scenario.clip]; Simulated.ClickStart].

(** 338 draws of [Math.random], the last one above 0.95. *)
Definition draws : list Q := repeat (1 # 2)%Q 337 ++ [(99 # 100)%Q].

(** The double nearest to 0.1, as a position in a video. *)
Definition tenth : Q := Double.round (1 # 10).

(** A whole simulated job, then an export. *)
Definition simulated_events : list Simulated.Event :=
  [Simulated.Drop [Scenario.clip]; Simulated.ClickStart]
  ++ Simulated.ticks 0 draws ++ [Simulated.ClickExport].

End Samples.

(* ================================================================== *)
(** ** Rounding to the nearest double *)

Section DoubleFacts.
Import Double.
Local Open Scope Q_scope.

Lemma pow2_pos (k : Z) : 0 < pow2 k.
Proof. apply Qpower_0_lt. reflexivity. Qed.

Lemma pow2_add (a b : Z) : pow2 (a + b) == pow2 a * pow2 b.
Proof. apply Qpower_plus. discriminate. Qed.

Lemma pow2_Z (n : Z) : (0 <= n)%Z -> pow2 n == inject_Z (2 ^ n).
Proof. intros Hn. unfold pow2. now rewrite (Zpower_Qpower 2 n Hn). Qed.

Lemma pow2_le (a b : Z) : (a <= b)%Z -> pow2 a <= pow2 b.
Proof. intros H. apply Qpower_le_compat_l; [exact H | discriminate]. Qed.

Lemma pow2_lt_inv (a b : Z) : pow2 a < pow2 b -> (a < b)%Z.
Proof. intros H. apply (Qpower_lt_compat_l_inv 2); [exact H | reflexivity]. Qed.

(** [ilog2 a] is the integer part of the binary logarithm. *)
Lemma ilog2_spec (a : Q) : 0 < a -> pow2 (ilog2 a) <= a < pow2 (ilog2 a + 1).
Proof.
  intros Ha. destruct a as [n d]. unfold ilog2. cbn [Qnum Qden].
  assert (Hn : (0 < n)%Z) by (unfold Qlt in Ha; cbn in Ha; lia).
  set (ln := Z.log2 n). set (ld := Z.log2 (Z.pos d)).
  assert (Hln : (2 ^ ln <= n < 2 ^ (ln + 1))%Z).
  { destruct (Z.log2_spec n Hn) as [H1 H2]. unfold ln. now rewrite <- Z.add_1_r in H2. }
  assert (Hld : (2 ^ ld <= Z.pos d < 2 ^ (ld + 1))%Z).
  { destruct (Z.log2_spec (Z.pos d) ltac:(lia)) as [H1 H2]. unfold ld.
    now rewrite <- Z.add_1_r in H2. }
  assert (Hln0 : (0 <= ln)%Z) by apply Z.log2_nonneg.
  assert (Hld0 : (0 <= ld)%Z) by apply Z.log2_nonneg.
  assert (Hq : n # d == inject_Z n / inject_Z (Z.pos d)) by apply Qmake_Qdiv.
  assert (Hd : 0 < inject_Z (Z.pos d)) by reflexivity.
  assert (Hup : n # d < pow2 (ln - ld + 1)).
  { rewrite Hq. apply Qlt_shift_div_r; [exact Hd |].
    apply Qlt_le_trans with (inject_Z (2 ^ (ln + 1))).
    - rewrite <- Zlt_Qlt. lia.
    - rewrite <- pow2_Z by lia.
      replace (ln + 1)%Z with ((ln - ld + 1) + ld)%Z by ring.
      rewrite pow2_add. apply Qmult_le_l; [apply pow2_pos |].
      rewrite pow2_Z by lia. rewrite <- Zle_Qle. lia. }
  assert (Hlow : pow2 (ln - ld - 1) <= n # d).
  { rewrite Hq. apply Qle_shift_div_l; [exact Hd |].
    apply Qle_trans with (inject_Z (2 ^ ln)).
    - rewrite <- pow2_Z by lia.
      replace ln with ((ln - ld - 1) + (ld + 1))%Z at 2 by ring.
      rewrite pow2_add. apply Qmult_le_l; [apply pow2_pos |].
      rewrite pow2_Z by lia. rewrite <- Zle_Qle. lia.
    - rewrite <- Zle_Qle. lia. }
  destruct (Qle_bool (pow2 (ln - ld)) (n # d)) eqn:Hcmp.
  - apply Qle_bool_iff in Hcmp. split; [exact Hcmp | exact Hup].
  - split; [exact Hlow |].
    replace (ln - ld - 1 + 1)%Z with (ln - ld)%Z by ring.
    apply Qnot_le_lt. intros H. apply Qle_bool_iff in H. congruence.
Qed.

Lemma ilog2_le (a : Q) (k : Z) : 0 < a -> a < pow2 (k + 1) -> (ilog2 a <= k)%Z.
Proof.
  intros Ha Hk. destruct (ilog2_spec Ha) as [Hlo _].
  assert (H : (ilog2 a < k + 1)%Z).
  { apply pow2_lt_inv. eapply Qle_lt_trans; eassumption. }
  lia.
Qed.

Lemma ilog2_ge (a : Q) (k : Z) : pow2 k <= a -> (k <= ilog2 a)%Z.
Proof.
  intros Hk.
  assert (Ha : 0 < a) by (eapply Qlt_le_trans; [apply pow2_pos | exact Hk]).
  destruct (ilog2_spec Ha) as [_ Hhi].
  assert (H : (k < ilog2 a + 1)%Z).
  { apply pow2_lt_inv. eapply Qle_lt_trans; eassumption. }
  lia.
Qed.

(** *** Rounding to the nearest integer *)

Lemma rne_bounds (x : Q) : (Qfloor x <= rne x <= Qfloor x + 1)%Z.
Proof.
  unfold rne. destruct (x - inject_Z (Qfloor x) ?= 1 # 2); [| lia | lia].
  destruct (Z.even (Qfloor x)); lia.
Qed.

Lemma rne_Z (n : Z) : rne (inject_Z n) = n.
Proof.
  unfold rne. rewrite Qfloor_Z.
  assert (H : inject_Z n - inject_Z n == 0) by ring.
  rewrite H. reflexivity.
Qed.

Lemma rne_le (x y : Q) : x <= y -> (rne x <= rne y)%Z.
Proof.
  intros Hxy. pose proof (Qfloor_resp_le _ _ Hxy) as Hf.
  pose proof (rne_bounds x) as Hx. pose proof (rne_bounds y) as Hy.
  destruct (Z.eq_dec (Qfloor x) (Qfloor y)) as [Heq | Hne]; [| lia].
  unfold rne in *. rewrite Heq in *. set (f := Qfloor y) in *.
  assert (Hfrac : x - inject_Z f <= y - inject_Z f) by lra.
  destruct (Qcompare_spec (x - inject_Z f) (1 # 2)) as [Ex | Lx | Gx];
    destruct (Qcompare_spec (y - inject_Z f) (1 # 2)) as [Ey | Ly | Gy];
    try destruct (Z.even f); try lia; exfalso; lra.
Qed.

Lemma rne_error (x : Q) : Qabs (inject_Z (rne x) - x) <= 1 # 2.
Proof.
  pose proof (Qfloor_le x) as Hlo. pose proof (Qlt_floor x) as Hhi.
  rewrite inject_Z_plus in Hhi. change (inject_Z 1) with 1 in Hhi.
  apply Qabs_Qle_condition. unfold rne.
  destruct (Qcompare_spec (x - inject_Z (Qfloor x)) (1 # 2)) as [E | L | G].
  - destruct (Z.even (Qfloor x)).
    + split; lra.
    + rewrite inject_Z_plus. change (inject_Z 1) with 1. split; lra.
  - split; lra.
  - rewrite inject_Z_plus. change (inject_Z 1) with 1. split; lra.
Qed.

Lemma rne_le_Z (x : Q) (n : Z) : x <= inject_Z n -> (rne x <= n)%Z.
Proof. intros H. rewrite <- (rne_Z n). now apply rne_le. Qed.

Lemma Z_le_rne (x : Q) (n : Z) : inject_Z n <= x -> (n <= rne x)%Z.
Proof. intros H. rewrite <- (rne_Z n). now apply rne_le. Qed.

(** *** Rounding to the nearest double *)

(** A rounded number is within half a unit in the last place. *)
Lemma round_error (q : Q) : Qabs (round q - q) <= pow2 (exponent q - 1).
Proof.
  unfold round. set (s := pow2 (exponent q)).
  assert (Hs : 0 < s) by apply pow2_pos.
  assert (Hhalf : pow2 (exponent q - 1) == s * (1 # 2)).
  { unfold Z.sub. rewrite pow2_add. reflexivity. }
  rewrite Hhalf.
  assert (Heq : inject_Z (rne (q / s)) * s - q == (inject_Z (rne (q / s)) - q / s) * s).
  { field. intros H. rewrite H in Hs. discriminate. }
  rewrite Heq, Qabs_Qmult, (Qabs_pos s) by lra.
  rewrite (Qmult_comm s). apply Qmult_le_compat_r; [apply rne_error | lra].
Qed.

(** A multiple of [2 ^ j] is a multiple of [2 ^ e] for [e <= j]. *)
Lemma grid (n j e : Z) :
  (e <= j)%Z -> inject_Z n * pow2 j == inject_Z (n * 2 ^ (j - e)) * pow2 e.
Proof.
  intros He. rewrite inject_Z_mult, <- pow2_Z by lia.
  replace j with ((j - e) + e)%Z at 1 by ring. rewrite pow2_add. ring.
Qed.

(** A multiple of a unit at least as coarse as that of [q] bounds the
    rounded [q] as it bounds [q]. *)
Lemma round_le_grid (q : Q) (n j : Z) :
  (exponent q <= j)%Z -> q <= inject_Z n * pow2 j -> round q <= inject_Z n * pow2 j.
Proof.
  intros He Hq. rewrite (grid n He) in *. unfold round.
  set (s := pow2 (exponent q)) in *. assert (Hs : 0 < s) by apply pow2_pos.
  apply Qmult_le_compat_r; [| lra]. rewrite <- Zle_Qle. apply rne_le_Z.
  apply Qle_shift_div_r; assumption.
Qed.

Lemma grid_le_round (q : Q) (n j : Z) :
  (exponent q <= j)%Z -> inject_Z n * pow2 j <= q -> inject_Z n * pow2 j <= round q.
Proof.
  intros He Hq. rewrite (grid n He) in *. unfold round.
  set (s := pow2 (exponent q)) in *. assert (Hs : 0 < s) by apply pow2_pos.
  apply Qmult_le_compat_r; [| lra]. rewrite <- Zle_Qle. apply Z_le_rne.
  apply Qle_shift_div_l; assumption.
Qed.

Lemma round_nonneg (q : Q) : 0 <= q -> 0 <= round q.
Proof.
  intros Hq.
  assert (H : inject_Z 0 * pow2 (exponent q) <= round q).
  { apply grid_le_round; [lia |]. change (inject_Z 0) with 0. lra. }
  change (inject_Z 0) with 0 in H. lra.
Qed.

Lemma round_nonpos (q : Q) : q <= 0 -> round q <= 0.
Proof.
  intros Hq.
  assert (H : round q <= inject_Z 0 * pow2 (exponent q)).
  { apply round_le_grid; [lia |]. change (inject_Z 0) with 0. lra. }
  change (inject_Z 0) with 0 in H. lra.
Qed.

Lemma exponent_le (q : Q) (k : Z) :
  0 < q -> q < pow2 (k + 1) -> (exponent q <= Z.max (k - 52) emin)%Z.
Proof.
  intros Hq Hk. unfold exponent.
  assert (H : (ilog2 (Qabs q) <= k)%Z).
  { apply ilog2_le; rewrite Qabs_pos by lra; assumption. }
  lia.
Qed.

(** Rounding keeps the order of numbers that are not negative. *)
Lemma round_le (x y : Q) : 0 <= x -> x <= y -> round x <= round y.
Proof.
  intros Hx Hxy.
  destruct (Qlt_le_dec 0 x) as [Hpos | Hzero].
  2: { apply Qle_trans with 0; [apply round_nonpos; lra | apply round_nonneg; lra]. }
  assert (Hy : 0 < y) by lra.
  destruct (ilog2_spec Hpos) as [Hx1 Hx2]. destruct (ilog2_spec Hy) as [Hy1 Hy2].
  set (kx := ilog2 x) in *. set (ky := ilog2 y) in *.
  assert (Hex : exponent x = Z.max (kx - 52) emin).
  { unfold exponent, kx. f_equal. f_equal. apply Z.le_antisymm.
    - apply ilog2_le; rewrite Qabs_pos by lra; assumption.
    - apply ilog2_ge. rewrite Qabs_pos by lra. assumption. }
  assert (Hey : exponent y = Z.max (ky - 52) emin).
  { unfold exponent, ky. f_equal. f_equal. apply Z.le_antisymm.
    - apply ilog2_le; rewrite Qabs_pos by lra; assumption.
    - apply ilog2_ge. rewrite Qabs_pos by lra. assumption. }
  assert (Hk : (kx <= ky)%Z).
  { assert (H : (kx < ky + 1)%Z) by (apply pow2_lt_inv; lra). lia. }
  destruct (Z.eq_dec (exponent x) (exponent y)) as [Heq | Hne].
  - unfold round. rewrite Heq. set (s := pow2 (exponent y)).
    assert (Hs : 0 < s) by apply pow2_pos.
    apply Qmult_le_compat_r; [| lra]. rewrite <- Zle_Qle. apply rne_le.
    apply Qmult_le_compat_r; [exact Hxy |]. apply Qinv_le_0_compat. lra.
  - assert (Hlt : (kx < ky)%Z) by lia.
    assert (Hky : exponent y = (ky - 52)%Z) by (unfold emin in *; lia).
    apply Qle_trans with (inject_Z 1 * pow2 ky).
    + apply round_le_grid; [unfold emin in *; lia |].
      change (inject_Z 1) with 1. rewrite Qmult_1_l.
      apply Qle_trans with (pow2 (kx + 1)); [lra | apply pow2_le; lia].
    + apply grid_le_round; [lia |].
      change (inject_Z 1) with 1. rewrite Qmult_1_l. exact Hy1.
Qed.

Lemma round_zero (q : Q) : q == 0 -> round q == 0.
Proof.
  intros Hq. apply Qle_antisym; [apply round_nonpos | apply round_nonneg]; lra.
Qed.

(** The error of rounding a number that is at most [2 ^ (k + 1)]. *)
Lemma round_error_below (q : Q) (k : Z) :
  0 <= q -> q < pow2 (k + 1) -> (emin <= k - 52)%Z ->
  Qabs (round q - q) <= pow2 (k - 53).
Proof.
  intros Hq Hk Hmin. destruct (Qlt_le_dec 0 q) as [Hpos | Hzero].
  - eapply Qle_trans; [apply round_error |]. apply pow2_le.
    pose proof (exponent_le k Hpos Hk). lia.
  - assert (Hz : q == 0) by lra. rewrite (round_zero Hz), Hz.
    pose proof (pow2_pos (k - 53)). cbn. lra.
Qed.

(** The frame estimate [Math.floor((progress / 100) * totalFrames)] in
    doubles, against the exact product. *)
Lemma estimate_close (p : Q) (t : Z) :
  0 <= p -> p <= 100 -> (0 < t <= 2 ^ 52)%Z ->
  0 <= mul (div p 100) (inject_Z t) <= inject_Z t /\
  Qabs (mul (div p 100) (inject_Z t) - p / 100 * inject_Z t) <= 1.
Proof.
  intros Hp0 Hp1 Ht. unfold mul, div.
  set (x := p / 100). set (x1 := round x). set (T := inject_Z t).
  assert (Hx0 : 0 <= x) by (unfold x; apply Qle_shift_div_l; lra).
  assert (Hx1 : x <= 1) by (unfold x; apply Qle_shift_div_r; lra).
  assert (HT0 : 1 <= T).
  { unfold T. change 1 with (inject_Z 1). rewrite <- Zle_Qle. lia. }
  assert (HT1 : T <= 4503599627370496).
  { unfold T. change 4503599627370496 with (inject_Z (2 ^ 52)). rewrite <- Zle_Qle. lia. }
  assert (H53 : pow2 (0 - 53) == 1 # 9007199254740992) by reflexivity.
  assert (H1 : pow2 (52 - 53) == 1 # 2) by reflexivity.
  assert (Hr0 : 0 <= x1) by (apply round_nonneg; exact Hx0).
  assert (Hr1 : x1 <= 1).
  { destruct (Qlt_le_dec 0 x) as [Hpos | Hzero].
    - assert (H : round x <= inject_Z 1 * pow2 0).
      { apply round_le_grid.
        - assert (He := @exponent_le x 0 Hpos). cbn in He.
          assert (Hlt : x < pow2 1) by (change (pow2 1) with 2; lra).
          specialize (He Hlt). unfold emin in He. lia.
        - change (inject_Z 1 * pow2 0) with (1 * 1). lra. }
      change (inject_Z 1 * pow2 0) with (1 * 1) in H. unfold x1. lra.
    - unfold x1. pose proof (round_nonpos Hzero). lra. }
  assert (He1 : Qabs (x1 - x) <= 1 # 9007199254740992).
  { rewrite <- H53. apply round_error_below; [exact Hx0 | | unfold emin; lia].
    change (pow2 (0 + 1)) with 2. lra. }
  set (z := x1 * T).
  assert (Hz0 : 0 <= z) by (unfold z; apply Qmult_le_0_compat; lra).
  assert (Hz1 : z <= T).
  { unfold z. rewrite <- (Qmult_1_l T) at 2. apply Qmult_le_compat_r; lra. }
  assert (Hzlt : z < pow2 (52 + 1)).
  { change (pow2 (52 + 1)) with 9007199254740992. lra. }
  assert (He2 : Qabs (round z - z) <= 1 # 2).
  { rewrite <- H1. apply round_error_below; [exact Hz0 | exact Hzlt | unfold emin; lia]. }
  assert (Hy1 : round z <= T).
  { destruct (Qlt_le_dec 0 z) as [Hpos | Hzero].
    - assert (H : round z <= inject_Z t * pow2 0).
      { apply round_le_grid.
        - pose proof (exponent_le 52 Hpos Hzlt) as He. unfold emin in He. lia.
        - change (pow2 0) with 1. fold T. lra. }
      change (pow2 0) with 1 in H. fold T in H. lra.
    - pose proof (round_nonpos Hzero). lra. }
  split; [split; [apply round_nonneg; exact Hz0 | exact Hy1] |].
  assert (Hsplit : round z - x * T == (round z - z) + (x1 - x) * T) by (unfold z; ring).
  rewrite Hsplit. eapply Qle_trans; [apply Qabs_triangle |].
  assert (Hprod : Qabs ((x1 - x) * T) <= 1 # 2).
  { rewrite Qabs_Qmult, (Qabs_pos T) by lra.
    apply Qle_trans with ((1 # 9007199254740992) * 4503599627370496); [| apply Qle_bool_imp_le; reflexivity].
    apply Qle_trans with ((1 # 9007199254740992) * T).
    - apply Qmult_le_compat_r; [exact He1 | lra].
    - apply Qmult_le_l; [reflexivity | exact HT1]. }
  lra.
Qed.

Lemma Qfloor_close (y w : Q) : Qabs (y - w) <= 1 -> (Z.abs (Qfloor y - Qfloor w) <= 1)%Z.
Proof.
  intros H. apply Qabs_Qle_condition in H. destruct H as [H1 H2].
  pose proof (Qfloor_le y) as Hy1. pose proof (Qlt_floor y) as Hy2.
  pose proof (Qfloor_le w) as Hw1. pose proof (Qlt_floor w) as Hw2.
  rewrite inject_Z_plus in Hy2, Hw2. change (inject_Z 1) with 1 in *.
  assert (Ha : inject_Z (Qfloor y) < inject_Z (Qfloor w + 2)).
  { rewrite inject_Z_plus. change (inject_Z 2) with 2. lra. }
  assert (Hb : inject_Z (Qfloor w) < inject_Z (Qfloor y + 2)).
  { rewrite inject_Z_plus. change (inject_Z 2) with 2. lra. }
  rewrite <- Zlt_Qlt in Ha, Hb. lia.
Qed.

End DoubleFacts.

(** [Double] agrees with the specification of binary64 in the Standard
    Library where this program computes: on the frame estimate for every
    whole percentage from 0 to 150 of 1, 7, 100, 300 and 8450 frames, on
    the progress after each of the 338 ticks of the simulated job, and on
    a skip forward and back from 0.1. *)
Example Double_agrees_with_Binary64 :
  forallb (fun percent => forallb (fun frames =>
      Binary64.denotes
        (Binary64.mul (Binary64.div (Binary64.of_Z percent) (Binary64.of_Z 100))
                      (Binary64.of_Z frames))
        (Double.mul (Double.div (inject_Z percent) 100) (inject_Z frames)))
      [1; 7; 100; 300; 8450])
    (map Z.of_nat (seq 0 151)) = true
  /\ forallb (fun frame =>
      Binary64.denotes
        (Binary64.mul (Binary64.div (Binary64.of_Z frame) (Binary64.of_Z 8450))
                      (Binary64.of_Z 100))
        (Double.mul (Double.div (inject_Z frame) 8450) 100))
    (map (fun k => 25 * Z.of_nat k) (seq 1 338)) = true
  /\ Binary64.denotes
       (Binary64.sub
          (Binary64.add (Binary64.div (Binary64.of_Z 1) (Binary64.of_Z 10))
                        (Binary64.of_Z 10))
          (Binary64.of_Z 10))
       (Double.sub (Double.add (Double.div 1 10) 10) 10) = true.
Proof. vm_compute. repeat split. Qed.

(* ================================================================== *)
(** ** Properties of the API client *)

Import Ui Loop.

Example apiRequest_ok : Api.apiRequest (Api.ok_json "{..}" 7) = inr 7.
Proof. reflexivity. Qed.

Example apiRequest_offline :
  Api.getDetections Scenario.offline
  = inl (Api.ApiError 0 "Network error: Failed to fetch").
Proof. reflexivity. Qed.

Example apiRequest_not_an_error :
  Api.apiRequest (T:=nat) (inl Api.NotAnError)
  = inl (Api.ApiError 0 "Network error: Unknown error").
Proof. reflexivity. Qed.

(** C10, as stated, fails: [api.uploadVideo] does not go through
    [apiRequest]; when the transport fails it throws what [fetch] threw,
    which is not an [ApiError].  And a non-2xx response with an empty body
    is thrown with the message [HTTP <status>], not with the body text. *)
Lemma uploadVideo_throws_platform_error :
  Api.uploadVideo Scenario.offline
    = inl (Api.Platform (Api.ErrorObject "Failed to fetch"))
  /\ Api.is_ApiError (Api.Platform (Api.ErrorObject "Failed to fetch")) = false
  /\ Api.healthCheck
       (inr {| Api.status := 500; Api.text := inr EmptyString;
               Api.json := inl Api.NotAnError |})
     = inl (Api.ApiError 500 "HTTP 500").
Proof. repeat split. Qed.

(** C10, amended: every failure of [apiRequest] (hence of [healthCheck],
    [startProcessing], [getProcessingStatus], [getDetections] and
    [getFrameDetections], which return it) is an [ApiError].  Either the
    response is not 2xx and its body was read: the error carries the status
    of the response and the body text, or [HTTP <status>] when the body is
    empty.  Or the transport failed, or the body could not be read or
    parsed: the error has status 0 and the message ["Network error: "]
    followed by the message of the failure. *)
Theorem apiRequest_throws_only_ApiError (T : Type) (fetched : Api.Fetched T)
    (e : Api.Thrown) :
  Api.apiRequest fetched = inl e ->
  (exists response body,
      fetched = inr response /\ Api.ok response = false /\
      Api.text response = inr body /\
      e = Api.ApiError (Api.status response)
            (or_else body ("HTTP " ++ show_N (Api.status response))))
  \/
  (exists f,
      (fetched = inl f \/
       exists response, fetched = inr response /\
         (Api.ok response = false /\ Api.text response = inl f \/
          Api.ok response = true /\ Api.json response = inl f)) /\
      e = Api.ApiError 0 ("Network error: " ++ Api.foreign_message f "Unknown error")).
Proof.
  unfold Api.apiRequest.
  destruct fetched as [f | response]; cbn.
  - intros [= <-]. right. exists f. split; [now left | reflexivity].
  - destruct (Api.ok response) eqn:Hok; cbn.
    + destruct (Api.json response) as [f | v] eqn:Hjson; cbn; [| discriminate].
      intros [= <-]. right. exists f. split; [| reflexivity].
      right. exists response. split; [reflexivity |]. right. now split.
    + destruct (Api.text response) as [f | body] eqn:Htext; cbn.
      * intros [= <-]. right. exists f. split; [| reflexivity].
        right. exists response. split; [reflexivity |]. left. now split.
      * intros [= <-]. left. exists response, body. repeat split; assumption.
Qed.

Lemma apiRequest_throws_only_ApiError_witness :
  (exists response body,
      Api.Fetched_503 = inr response /\ Api.ok response = false /\
      Api.text response = inr body /\
      Api.ApiError 503 "busy"
      = Api.ApiError (Api.status response)
          (or_else body ("HTTP " ++ show_N (Api.status response))))
  \/
  (exists f,
      (Api.Fetched_503 = inl f \/
       exists response, Api.Fetched_503 = inr response /\
         (Api.ok response = false /\ Api.text response = inl f \/
          Api.ok response = true /\ Api.json response = inl f)) /\
      Api.ApiError 503 "busy"
      = Api.ApiError 0 ("Network error: " ++ Api.foreign_message f "Unknown error")).
Proof.
  exact (@apiRequest_throws_only_ApiError Api.Started Api.Fetched_503
           (Api.ApiError 503 "busy") eq_refl).
Defined.

(* ================================================================== *)
(** ** Traces *)

Local Open Scope list_scope.

Section TraceProjections.
Variables (tr1 tr2 : list Obs) (p : nat).

Lemma sent_app : sent (tr1 ++ tr2) = sent tr1 ++ sent tr2.
Proof. apply flat_map_app. Qed.

Lemma toasts_app : toasts (tr1 ++ tr2) = toasts tr1 ++ toasts tr2.
Proof. apply flat_map_app. Qed.

Lemma snapshots_app : snapshots p (tr1 ++ tr2) = snapshots p tr1 ++ snapshots p tr2.
Proof. apply flat_map_app. Qed.

Lemma outcomes_app : outcomes p (tr1 ++ tr2) = outcomes p tr1 ++ outcomes p tr2.
Proof. apply flat_map_app. Qed.
End TraceProjections.

(** A toast changes nothing but the trace, and sends nothing. *)
Lemma toast_only (v : Variant) (t d : string) (w : World) :
  ui (toast v t d w) = ui w /\ pending (toast v t d w) = pending w /\
  timers (toast v t d w) = timers w /\
  sent (trace (toast v t d w)) = sent (trace w) /\
  toasts (trace (toast v t d w))
  = toasts (trace w) ++ [{| variant := v; title := t; description := d |}].
Proof.
  unfold toast, log; cbn. rewrite sent_app, toasts_app; cbn.
  rewrite app_nil_r. repeat split.
Qed.

(* ================================================================== *)
(** ** Upload validation *)

Example onDrop_text_file :
  toasts (trace (step (Drop [Scenario.notes]) Scenario.connected))
  = [{| variant := destructive; title := "Invalid File Type";
        description := "Please upload a video file (MP4, AVI, MOV, etc.)" |}].
Proof. reflexivity. Qed.

(** C9, as stated, fails: an empty file that declares a video type passes
    [onDrop] and [handleVideoUpload], and the upload request is sent. *)
Lemma empty_video_is_uploaded :
  Ui.size Scenario.empty_clip = 0
  /\ sent (trace (step (Drop [Scenario.empty_clip]) Scenario.connected))
     = [GET_root; POST_upload_video Scenario.empty_clip].
Proof. split; reflexivity. Qed.

(** C9, amended: the declared media type is checked before any network
    call.  A dropped file whose type does not start with [video/] is
    rejected with the "Invalid File Type" notification: no request is sent,
    none is left in flight, and the state is unchanged.  (The size of the
    file is not looked at.) *)
Theorem onDrop_rejects_non_video (w : World) (file : File) (rest : list File) :
  startsWith (type file) "video/" = false ->
  sent (trace (step (Drop (file :: rest)) w)) = sent (trace w) /\
  pending (step (Drop (file :: rest)) w) = pending w /\
  ui (step (Drop (file :: rest)) w) = ui w /\
  toasts (trace (step (Drop (file :: rest)) w))
  = toasts (trace w)
    ++ [{| variant := destructive; title := "Invalid File Type";
           description := "Please upload a video file (MP4, AVI, MOV, etc.)" |}].
Proof.
  intros Htype. cbn [step onDrop]. rewrite Htype.
  destruct (toast_only destructive "Invalid File Type"
              "Please upload a video file (MP4, AVI, MOV, etc.)" w)
    as (Hui & Hpending & _ & Hsent & Htoasts).
  auto.
Qed.

Lemma onDrop_rejects_non_video_witness :
  sent (trace (step (Drop [Scenario.notes]) Scenario.connected))
  = sent (trace Scenario.connected) /\
  pending (step (Drop [Scenario.notes]) Scenario.connected) = pending Scenario.connected /\
  ui (step (Drop [Scenario.notes]) Scenario.connected) = ui Scenario.connected /\
  toasts (trace (step (Drop [Scenario.notes]) Scenario.connected))
  = toasts (trace Scenario.connected)
    ++ [{| variant := destructive; title := "Invalid File Type";
           description := "Please upload a video file (MP4, AVI, MOV, etc.)" |}].
Proof.
  apply (onDrop_rejects_non_video Scenario.connected Scenario.notes []).
  reflexivity.
Defined.

(* ================================================================== *)
(** ** Fetching the detection summary *)

(** C7, as stated, fails: after the summary of the completed job was
    fetched, a second [getDetections] for the same job sends a second
    request: two network calls, not one. *)
Lemma getDetections_twice_fetches_twice :
  detectionSummary (ui Scenario.finished) = Some (Scenario.no_detections 8450)
  /\ detection_requests (trace Scenario.finished) = 1%nat
  /\ detection_requests (trace (getDetections Scenario.finished)) = 2%nat.
Proof. repeat split. Qed.

(** C7, amended: [getDetections] has no cache.  Every call sends one more
    [GET /detections] request and suspends on it, and it returns what the
    backend answers to that request: two calls make two network calls, and
    their results are structurally identical exactly when the two answers
    are. *)
Theorem getDetections_always_fetches (w : World) :
  detection_requests (trace (getDetections w)) = S (detection_requests (trace w))
  /\ lookup (nextId w) (pending (getDetections w)) = Some getDetections_await
  /\ forall body d, Api.getDetections (Api.ok_json body d) = inr d.
Proof.
  unfold getDetections, fetch, detection_requests; cbn.
  rewrite sent_app, filter_app, length_app; cbn.
  rewrite Nat.eqb_refl. repeat split. lia.
Qed.

(* ================================================================== *)
(** ** The progress observer *)

Lemma onProgress_progress (t : Z) (s : Api.ProcessingStatus) (d : State) :
  progress (onProgress t s d) = Api.progress s /\
  detectedTargets (onProgress t s d) = Api.detections_count s.
Proof. unfold onProgress. destruct (0 <? t); split; reflexivity. Qed.

(** C6, as stated, fails.  The estimate is not clamped: at 150 percent of
    100 frames the observer shows frame 150.  And there is no "unknown":
    with a total of 0 the observer leaves [currentFrame] alone, so the
    dashboard shows frame 0 while the job is at 55 percent. *)
Lemma frame_estimate_not_clamped_nor_unknown :
  Spec.estimateFrame 150 100 = Spec.frame 100
  /\ currentFrame (onProgress 100 (Scenario.status true 150) initial) = 150
  /\ Spec.estimateFrame 55 0 = Spec.unknown
  /\ observer_totalFrames
       {| poller_id := 0; intervalMs := 1000; observer_totalFrames := totalFrames (ui Scenario.ready) |} = 0
  /\ progress (ui Scenario.at_55) = 55%Q
  /\ currentFrame (ui Scenario.at_55) = 0.
Proof. repeat split. Qed.

(** C6, amended: the observer sets the current frame to
    [Math.floor((progress / 100) * totalFrames)], computed in doubles,
    when [totalFrames] is positive, without clamping, and otherwise leaves
    the current frame as it was (no "unknown" value exists).  For a
    progress between 0 and 100 and at most 2^52 frames the estimate lies in
    [[0, totalFrames]], differs by at most one from the exact
    [floor(progress / 100 * totalFrames)], and does not decrease when the
    progress grows.  At 50 percent of 8450 frames it is 4225, at 100
    percent 8450; at 29 percent of 100 frames it is 28, one below the
    exact value. *)
Theorem onProgress_frame_estimate :
  (forall t s d, t <= 0 -> currentFrame (onProgress t s d) = currentFrame d)
  /\ (forall t s d,
      0 < t <= 2 ^ 52 -> (0 <= Api.progress s)%Q -> (Api.progress s <= 100)%Q ->
      0 <= currentFrame (onProgress t s d) <= t /\
      Z.abs (currentFrame (onProgress t s d)
             - Qfloor (Api.progress s / 100 * inject_Z t)) <= 1)
  /\ (forall t s s' d d',
      0 < t <= 2 ^ 52 ->
      (0 <= Api.progress s)%Q -> (Api.progress s <= Api.progress s')%Q ->
      (Api.progress s' <= 100)%Q ->
      currentFrame (onProgress t s d) <= currentFrame (onProgress t s' d'))
  /\ (forall running d, currentFrame (onProgress 8450 (Scenario.status running 50) d) = 4225)
  /\ (forall running d, currentFrame (onProgress 8450 (Scenario.status running 100) d) = 8450)
  /\ (forall running d, currentFrame (onProgress 100 (Scenario.status running 29) d) = 28
                        /\ Qfloor (29 / 100 * inject_Z 100) = 29).
Proof.
  assert (Hvalue : forall t s d, 0 < t ->
      currentFrame (onProgress t s d)
      = Qfloor (Double.mul (Double.div (Api.progress s) 100) (inject_Z t))).
  { intros t s d Ht. unfold onProgress.
    destruct (Z.ltb_spec 0 t) as [_ | Hle]; [reflexivity | lia]. }
  split; [| split; [| split; [| repeat split]]].
  - intros t s d Ht. unfold onProgress.
    destruct (Z.ltb_spec 0 t) as [Hlt | _]; [lia | reflexivity].
  - intros t s d Ht Hlo Hhi. rewrite Hvalue by lia.
    destruct (estimate_close Hlo Hhi Ht) as [[H0 H1] Hclose].
    split; [split |].
    + rewrite <- (Qfloor_Z 0). apply Qfloor_resp_le. exact H0.
    + rewrite <- (Qfloor_Z t) at 2. apply Qfloor_resp_le. exact H1.
    + apply Qfloor_close. exact Hclose.
  - intros t s s' d d' Ht Hlo Hle Hhi. rewrite !Hvalue by lia.
    apply Qfloor_resp_le. unfold Double.mul, Double.div.
    assert (Hx : (0 <= Api.progress s / 100)%Q) by (apply Qle_shift_div_l; lra).
    assert (Hxy : (Api.progress s / 100 <= Api.progress s' / 100)%Q).
    { apply Qmult_le_compat_r; [exact Hle | discriminate]. }
    assert (HT : (0 <= inject_Z t)%Q).
    { change 0%Q with (inject_Z 0). rewrite <- Zle_Qle. lia. }
    apply round_le.
    + apply Qmult_le_0_compat; [apply round_nonneg; exact Hx | exact HT].
    + apply Qmult_le_compat_r; [apply round_le; assumption | exact HT].
Qed.

Lemma onProgress_frame_estimate_witness :
  currentFrame (onProgress 0 (Scenario.status true 55) initial) = 0
  /\ (0 <= currentFrame (onProgress 100 (Scenario.status true 29) initial) <= 100
      /\ Z.abs (currentFrame (onProgress 100 (Scenario.status true 29) initial)
                - Qfloor (29 / 100 * inject_Z 100)) <= 1)
  /\ currentFrame (onProgress 100 (Scenario.status true 29) initial)
     <= currentFrame (onProgress 100 (Scenario.status true 57) initial).
Proof.
  destruct onProgress_frame_estimate as (Hkeep & Hclose & Hmono & _).
  split; [| split].
  - apply (Hkeep 0 (Scenario.status true 55) initial). lia.
  - apply (Hclose 100 (Scenario.status true 29) initial).
    + lia.
    + discriminate.
    + discriminate.
  - apply (Hmono 100 (Scenario.status true 29) (Scenario.status true 57) initial initial).
    + lia.
    + discriminate.
    + discriminate.
    + discriminate.
Defined.

(** What a status response does when it reaches its poller. *)
Lemma status_settles (w : World) (id : nat) (self : Poller)
    (fetched : Api.Fetched Api.ProcessingStatus) (s : Api.ProcessingStatus) :
  lookup id (pending w) = Some (poll_await self) ->
  Api.getProcessingStatus fetched = inr s ->
  snapshots (poller_id self) (trace (step (StatusSettles id fetched) w))
  = snapshots (poller_id self) (trace w) ++ [s] /\
  progress (ui (step (StatusSettles id fetched) w))
  = (if Api.is_processing s then Api.progress s else 100%Q) /\
  detectedTargets (ui (step (StatusSettles id fetched) w)) = Api.detections_count s /\
  toasts (trace (step (StatusSettles id fetched) w)) = toasts (trace w).
Proof.
  intros Hpending Hfetched. cbn [step]. rewrite Hpending, Hfetched.
  unfold poll_resume, snapshots, toasts.
  destruct (Api.is_processing s); cbn;
    rewrite !flat_map_app; cbn; rewrite Nat.eqb_refl, ?app_nil_r;
    (split; [reflexivity |]); (split; [try apply onProgress_progress; reflexivity |]);
    (split; [apply onProgress_progress | reflexivity]).
Qed.

(** C5, as stated, fails: the backend reports 55 percent and then 10
    percent, and the displayed progress goes from 55 down to 10. *)
Lemma displayed_progress_decreases :
  progress (ui Scenario.at_55) = 55%Q
  /\ progress (ui Scenario.regressed) = 10%Q
  /\ (progress (ui Scenario.regressed) < progress (ui Scenario.at_55))%Q.
Proof. repeat split. Qed.

(** C5, amended: there is no clamp.  When a status response reaches the
    poller, the displayed progress becomes the value the backend reported
    in it while processing goes on (so it decreases whenever the backend
    reports less than before), and 100 once the backend reports that
    processing stopped. *)
Theorem displayed_progress_follows_backend (w : World) (id : nat) (self : Poller)
    (fetched : Api.Fetched Api.ProcessingStatus) (s : Api.ProcessingStatus) :
  lookup id (pending w) = Some (poll_await self) ->
  Api.getProcessingStatus fetched = inr s ->
  progress (ui (step (StatusSettles id fetched) w))
  = if Api.is_processing s then Api.progress s else 100%Q.
Proof.
  intros Hpending Hfetched. cbn [step]. rewrite Hpending, Hfetched.
  unfold poll_resume. destruct (Api.is_processing s); cbn.
  - apply onProgress_progress.
  - reflexivity.
Qed.

Lemma displayed_progress_follows_backend_witness :
  progress (ui (step (StatusSettles 5 (Scenario.status_ok (Scenario.status true 10)))
                  (run Scenario.at_55 [Elapse 1000; TimerFires 4])))
  = if Api.is_processing (Scenario.status true 10)
    then Api.progress (Scenario.status true 10) else 100%Q.
Proof.
  apply (@displayed_progress_follows_backend
           (run Scenario.at_55 [Elapse 1000; TimerFires 4]) 5%nat
           {| poller_id := 0; intervalMs := 1000; observer_totalFrames := 0 |}).
  - reflexivity.
  - reflexivity.
Defined.

(* ================================================================== *)
(** ** Starting a job *)

(** The two guards of [handleStartProcessing]. *)
Lemma handleStartProcessing_guard (w : World) :
  uploadedVideo (ui w) = None \/ backendConnected (ui w) = false ->
  exists t d,
    handleStartProcessing w = toast destructive t d w /\
    (uploadedVideo (ui w) = None -> t = "No Video Loaded"%string) /\
    (uploadedVideo (ui w) <> None -> t = "Backend Unavailable"%string).
Proof.
  intros H. unfold handleStartProcessing.
  destruct (uploadedVideo (ui w)) as [file |] eqn:Hvideo.
  - destruct H as [H | H]; [discriminate |]. rewrite H; cbn.
    eexists _, _. split; [reflexivity |]. split; [discriminate | reflexivity].
  - eexists _, _. split; [reflexivity |]. split; [reflexivity | congruence].
Qed.

(** C4, as stated, fails: a second start issued before the backend
    acknowledged the first is not rejected.  Between the click and the
    acknowledgement the state is unchanged ([idle], not processing), the
    second click sends a second start request without any notification, and
    after both acknowledgements two pollers are running. *)
Lemma second_start_is_accepted :
  status (ui (step ClickStart Scenario.ready)) = idle
  /\ isProcessing (ui (step ClickStart Scenario.ready)) = false
  /\ sent (trace Scenario.double_start)
     = [GET_root; POST_upload_video Scenario.clip;
        POST_start_processing; POST_start_processing]
  /\ toasts (since (length (trace Scenario.ready)) (trace Scenario.double_start)) = []
  /\ in_flight 0 Scenario.double_polling = 1%nat
  /\ in_flight 1 Scenario.double_polling = 1%nat.
Proof. repeat split. Qed.

(** C4, amended: a call of start with no video loaded, or with the
    connectivity flag false, is rejected with a destructive notification;
    it sends no request, leaves no request in flight and leaves the state
    unchanged.  The handler does not look at a job in progress: while
    [isProcessing] is true the start button is disabled, and a click changes
    nothing at all. *)
Theorem start_guards (w : World) :
  (uploadedVideo (ui w) = None \/ backendConnected (ui w) = false ->
   ui (handleStartProcessing w) = ui w /\
   pending (handleStartProcessing w) = pending w /\
   timers (handleStartProcessing w) = timers w /\
   sent (trace (handleStartProcessing w)) = sent (trace w) /\
   exists t, toasts (trace (handleStartProcessing w)) = toasts (trace w) ++ [t] /\
             variant t = destructive)
  /\ (isProcessing (ui w) = true -> step ClickStart w = w).
Proof.
  split.
  - intros H. destruct (handleStartProcessing_guard w H) as (t & d & -> & _).
    destruct (toast_only destructive t d w) as (Hui & Hpending & Htimers & Hsent & Htoasts).
    repeat split; try assumption. eexists. split; [exact Htoasts | reflexivity].
  - intros H. cbn [step]. unfold startEnabled. rewrite H.
    destruct (uploadedVideo (ui w)); reflexivity.
Qed.

Lemma start_guards_witness :
  (ui (handleStartProcessing Scenario.connected) = ui Scenario.connected /\
   pending (handleStartProcessing Scenario.connected) = pending Scenario.connected /\
   timers (handleStartProcessing Scenario.connected) = timers Scenario.connected /\
   sent (trace (handleStartProcessing Scenario.connected)) = sent (trace Scenario.connected) /\
   exists t, toasts (trace (handleStartProcessing Scenario.connected))
             = toasts (trace Scenario.connected) ++ [t] /\
             variant t = destructive)
  /\ step ClickStart Scenario.polling = Scenario.polling.
Proof.
  split.
  - apply (proj1 (start_guards Scenario.connected)). left. reflexivity.
  - apply (proj2 (start_guards Scenario.polling)). reflexivity.
Defined.

(* ================================================================== *)
(** ** The connectivity probe *)

(** C8, as stated, fails: the probe has no deadline.  Six seconds after the
    mount the unanswered probe is still in flight and nothing was reported;
    when the answer arrives then, the backend counts as connected, and a
    start contacts the backend. *)
Lemma probe_outlives_deadline :
  now Scenario.slow_probe = 6000%N
  /\ pending Scenario.slow_probe = [(0%nat, checkBackend_await)]
  /\ toasts (trace Scenario.slow_probe) = []
  /\ backendConnected (ui Scenario.late_start) = true
  /\ sent (trace Scenario.late_start)
     = [GET_root; POST_upload_video Scenario.clip; POST_start_processing].
Proof. repeat split. Qed.

(** C8, amended: the probe has no deadline: time passing settles no
    request and leaves the state, in particular the connectivity flag, as
    it was.  While the flag is false (as it is from the mount until a probe
    succeeds, and after a probe failed), a start sends no request to the
    backend and leaves the state unchanged; it is rejected with a
    destructive notification, titled "Backend Unavailable" when a video is
    loaded. *)
Theorem start_blocked_while_disconnected (w : World) (ms : N) :
  backendConnected (ui w) = false ->
  (pending (step (Elapse ms) w) = pending w /\
   ui (step (Elapse ms) w) = ui w /\
   trace (step (Elapse ms) w) = trace w)
  /\ sent (trace (handleStartProcessing w)) = sent (trace w)
  /\ pending (handleStartProcessing w) = pending w
  /\ ui (handleStartProcessing w) = ui w
  /\ exists t, toasts (trace (handleStartProcessing w)) = toasts (trace w) ++ [t] /\
               variant t = destructive /\
               (uploadedVideo (ui w) <> None -> title t = "Backend Unavailable"%string).
Proof.
  intros H. split; [repeat split |].
  destruct (handleStartProcessing_guard w (or_intror H)) as (t & d & -> & _ & Htitle).
  destruct (toast_only destructive t d w) as (Hui & Hpending & _ & Hsent & Htoasts).
  repeat split; try assumption.
  eexists. split; [exact Htoasts |]. split; [reflexivity | exact Htitle].
Qed.

Lemma start_blocked_while_disconnected_witness :
  (pending (step (Elapse 5000) Scenario.outage) = pending Scenario.outage /\
   ui (step (Elapse 5000) Scenario.outage) = ui Scenario.outage /\
   trace (step (Elapse 5000) Scenario.outage) = trace Scenario.outage)
  /\ sent (trace (handleStartProcessing Scenario.outage)) = sent (trace Scenario.outage)
  /\ pending (handleStartProcessing Scenario.outage) = pending Scenario.outage
  /\ ui (handleStartProcessing Scenario.outage) = ui Scenario.outage
  /\ exists t, toasts (trace (handleStartProcessing Scenario.outage))
               = toasts (trace Scenario.outage) ++ [t] /\
               variant t = destructive /\
               (uploadedVideo (ui Scenario.outage) <> None ->
                title t = "Backend Unavailable"%string).
Proof.
  apply (start_blocked_while_disconnected Scenario.outage 5000).
  reflexivity.
Defined.

(* ================================================================== *)
(** ** Uploading while a job is processing *)

Lemma lookup_remove_other {A} (id other : nat) (l : list (nat * A)) :
  id <> other -> lookup id (remove other l) = lookup id l.
Proof.
  intros Hne. unfold remove.
  induction l as [| [i a] l IH]; cbn; [reflexivity |].
  destruct (Nat.eqb_spec i other) as [-> | Hi]; cbn.
  - rewrite IH. destruct (Nat.eqb_spec other id); congruence.
  - rewrite IH. reflexivity.
Qed.

(** C1, as stated, fails: there is no generation token.  After the new
    video was accepted while the job was processing, the dashboard shows
    [idle] and progress 0, but the old poller is still asleep on its timer;
    it polls again, its observer is called with the next snapshot, and the
    displayed progress becomes 55. *)
Lemma stale_snapshot_is_observed :
  uploadedVideo (ui Scenario.superseded) = Some Scenario.second_clip
  /\ status (ui Scenario.superseded) = idle
  /\ progress (ui Scenario.superseded) = 0%Q
  /\ sleeping 0 Scenario.superseded = 1%nat
  /\ snapshots 0 (since (length (trace Scenario.superseded)) (trace Scenario.stale))
     = [Scenario.status true 55]
  /\ progress (ui Scenario.stale) = 55%Q.
Proof. repeat split. Qed.

(** C1, amended: accepting a new video while a job is processing replaces
    the asset and resets the displayed status, progress, frame, target
    count and summary, but invalidates nothing: [isProcessing], the timers
    and the status request in flight of the running poller stay as they
    were.  A status response that arrives afterwards is passed to the
    progress observer and written to the displayed progress and target
    count, without any notification. *)
Theorem upload_does_not_stop_poller (w : World) (up id : nat) (file : File)
    (self : Poller) (accepted : Api.Fetched Api.Uploaded) (uploadResult : Api.Uploaded)
    (fetched : Api.Fetched Api.ProcessingStatus) (s : Api.ProcessingStatus) :
  lookup up (pending w) = Some (handleVideoUpload_await file) ->
  Api.uploadVideo accepted = inr uploadResult ->
  lookup id (pending w) = Some (poll_await self) ->
  Api.getProcessingStatus fetched = inr s ->
  (uploadedVideo (ui (step (UploadSettles up accepted) w)) = Some file /\
   status (ui (step (UploadSettles up accepted) w)) = idle /\
   progress (ui (step (UploadSettles up accepted) w)) = 0%Q /\
   currentFrame (ui (step (UploadSettles up accepted) w)) = 0 /\
   detectedTargets (ui (step (UploadSettles up accepted) w)) = 0 /\
   detectionSummary (ui (step (UploadSettles up accepted) w)) = None)
  /\ (isProcessing (ui (step (UploadSettles up accepted) w)) = isProcessing (ui w) /\
      timers (step (UploadSettles up accepted) w) = timers w /\
      lookup id (pending (step (UploadSettles up accepted) w)) = Some (poll_await self))
  /\ (snapshots (poller_id self)
        (trace (step (StatusSettles id fetched) (step (UploadSettles up accepted) w)))
      = snapshots (poller_id self) (trace (step (UploadSettles up accepted) w)) ++ [s] /\
      progress (ui (step (StatusSettles id fetched) (step (UploadSettles up accepted) w)))
      = (if Api.is_processing s then Api.progress s else 100%Q) /\
      detectedTargets (ui (step (StatusSettles id fetched) (step (UploadSettles up accepted) w)))
      = Api.detections_count s /\
      toasts (trace (step (StatusSettles id fetched) (step (UploadSettles up accepted) w)))
      = toasts (trace (step (UploadSettles up accepted) w))).
Proof.
  intros Hup Haccepted Hid Hfetched.
  assert (Hne : id <> up) by (intros ->; congruence).
  set (w1 := step (UploadSettles up accepted) w).
  assert (Hw1 : w1 = handleVideoUpload_resume file (inr uploadResult) (settle w up)).
  { unfold w1. cbn [step]. now rewrite Hup, Haccepted. }
  assert (Hpending : lookup id (pending w1) = Some (poll_await self)).
  { rewrite Hw1. cbn. now rewrite lookup_remove_other. }
  split; [rewrite Hw1; repeat split |].
  split; [split; [| split]; [rewrite Hw1; reflexivity .. | exact Hpending] |].
  clearbody w1. now apply status_settles.
Qed.

Lemma upload_does_not_stop_poller_witness :
  lookup 4 (pending Scenario.reuploading) = Some (handleVideoUpload_await Scenario.second_clip)
  /\ lookup 3 (pending Scenario.reuploading)
     = Some (poll_await {| poller_id := 0; intervalMs := 1000; observer_totalFrames := 0 |})
  /\ snapshots 0
       (trace (step (StatusSettles 3 (Scenario.status_ok (Scenario.status true 55)))
                 (step (UploadSettles 4 (Scenario.upload_ok Scenario.second_clip))
                    Scenario.reuploading)))
     = snapshots 0
         (trace (step (UploadSettles 4 (Scenario.upload_ok Scenario.second_clip))
                   Scenario.reuploading))
       ++ [Scenario.status true 55]
  /\ progress
       (ui (step (StatusSettles 3 (Scenario.status_ok (Scenario.status true 55)))
              (step (UploadSettles 4 (Scenario.upload_ok Scenario.second_clip))
                 Scenario.reuploading)))
     = 55%Q.
Proof.
  split; [reflexivity |]. split; [reflexivity |].
  destruct (@upload_does_not_stop_poller Scenario.reuploading 4%nat 3%nat
              Scenario.second_clip
              {| poller_id := 0; intervalMs := 1000; observer_totalFrames := 0 |}
              (Scenario.upload_ok Scenario.second_clip)
              {| Api.up_message := "uploaded"; Api.filename := "roof.mov";
                 Api.size := 2097152; Api.up_status := "ready" |}
              (Scenario.status_ok (Scenario.status true 55))
              (Scenario.status true 55)
              eq_refl eq_refl eq_refl eq_refl)
    as (_ & _ & Hsnapshots & Hprogress & _).
  split; [exact Hsnapshots | exact Hprogress].
Defined.

(* ================================================================== *)
(** ** The polling loop *)

Import Backend.

Lemma serve_idle p script w : request_of p w = None -> serve p script w = w.
Proof. intros H. destruct script; cbn; [reflexivity | now rewrite H]. Qed.

(** One turn of the loop of a poller that runs alone. *)
Section OnePoller.
Variables (w : World) (id : nat) (self : Poller).
Variable fetched : Api.Fetched Api.ProcessingStatus.
Hypothesis Hpending : pending w = [(id, poll_await self)].
Hypothesis Htimers : timers w = [].

Lemma poller_request : request_of (poller_id self) w = Some id.
Proof. unfold request_of. rewrite Hpending; cbn. now rewrite Nat.eqb_refl. Qed.

Ltac settle_status Houtcome :=
  cbn [step]; rewrite Hpending; cbn [lookup]; rewrite Nat.eqb_refl, Houtcome;
  unfold poll_resume.

Ltac alone :=
  rewrite ?Hpending, ?Htimers; unfold remove; cbn; rewrite Nat.eqb_refl; cbn.

Lemma poller_continues (s : Api.ProcessingStatus) :
  Api.getProcessingStatus fetched = inr s ->
  Api.is_processing s = true ->
  pending (step (StatusSettles id fetched) w) = [] /\
  timers (step (StatusSettles id fetched) w)
  = [(nextId w, {| due := (now w + intervalMs self)%N; callback := self |})] /\
  now (step (StatusSettles id fetched) w) = now w /\
  nextId (step (StatusSettles id fetched) w) = S (nextId w) /\
  trace (step (StatusSettles id fetched) w)
  = trace w ++ [Settled id; OnProgress (poller_id self) s].
Proof.
  intros Houtcome Hs. settle_status Houtcome. rewrite Hs. cbn. alone.
  rewrite <- app_assoc. repeat split.
Qed.

Lemma poller_stops (s : Api.ProcessingStatus) :
  Api.getProcessingStatus fetched = inr s ->
  Api.is_processing s = false ->
  pending (step (StatusSettles id fetched) w) = [(nextId w, getDetections_await)] /\
  timers (step (StatusSettles id fetched) w) = [] /\
  trace (step (StatusSettles id fetched) w)
  = trace w ++ [Settled id; OnProgress (poller_id self) s;
                Resolved (poller_id self) s; Sent (nextId w) GET_detections].
Proof.
  intros Houtcome Hs. settle_status Houtcome. rewrite Hs. cbn. alone.
  rewrite <- !app_assoc. repeat split.
Qed.

Lemma poller_fails (e : Api.Thrown) :
  Api.getProcessingStatus fetched = inl e ->
  pending (step (StatusSettles id fetched) w) = [] /\
  timers (step (StatusSettles id fetched) w) = [] /\
  exists t, trace (step (StatusSettles id fetched) w)
            = trace w ++ [Settled id; Rejected (poller_id self) e; Toasted t].
Proof.
  intros Houtcome. settle_status Houtcome. cbn. alone.
  rewrite <- !app_assoc. repeat split. eexists. reflexivity.
Qed.
End OnePoller.

Lemma poller_wakes (w : World) (t : nat) (self : Poller) :
  pending w = [] ->
  timers w = [(t, {| due := (now w + intervalMs self)%N; callback := self |})] ->
  timer_of (poller_id self) w
  = Some (t, {| due := (now w + intervalMs self)%N; callback := self |}) /\
  pending (run w [Elapse (intervalMs self); TimerFires t]) = [(nextId w, poll_await self)] /\
  timers (run w [Elapse (intervalMs self); TimerFires t]) = [] /\
  trace (run w [Elapse (intervalMs self); TimerFires t])
  = trace w ++ [Sent (nextId w) GET_processing_status].
Proof.
  intros Hpending Htimers. split.
  - unfold timer_of, sleeps. rewrite Htimers. cbn. now rewrite Nat.eqb_refl.
  - cbn. rewrite Htimers. cbn. rewrite Nat.eqb_refl. cbn. rewrite N.leb_refl. cbn.
    rewrite Hpending, Htimers. unfold remove; cbn. rewrite Nat.eqb_refl. repeat split.
Qed.

Example scripted_run :
  since (length (trace Scenario.polling))
    (trace (serve 0 (map Scenario.status_ok Scenario.scripted) Scenario.polling))
  = [Settled 3; OnProgress 0 (Scenario.status true 10);
     Sent 5 GET_processing_status; Settled 5; OnProgress 0 (Scenario.status true 55);
     Sent 7 GET_processing_status; Settled 7; OnProgress 0 (Scenario.status false 100);
     Resolved 0 (Scenario.status false 100); Sent 8 GET_detections].
Proof. reflexivity. Qed.

Example interrupted_run :
  snapshots 0 (trace (serve 0 Scenario.interrupted Scenario.polling))
  = [Scenario.status true 10]
  /\ outcomes 0 (trace (serve 0 Scenario.interrupted Scenario.polling))
     = [inl (Api.ApiError 0 "Network error: Failed to fetch")].
Proof. split; reflexivity. Qed.

(** C2: the first status request of a poller is in flight, nothing else
    is, and the backend answers the poller from a finite script.  The
    observer is called once per status, in the order of the answers, up to
    and including the first status that reports processing stopped.  The
    promise is settled exactly once if the script has a terminal answer
    (resolved with the first status that reports processing stopped, right
    after the observer saw it, or rejected with the error of the first
    failed request), and then the loop has ended: no request of the poller
    is in flight, no timer is pending.  Otherwise the promise is not settled
    and one request is in flight.  For the script 10, 55, stopped at 100
    this gives three snapshots in order and one success, after the
    third. *)
Theorem poller_reports_in_order_and_once
    (script : list (Api.Fetched Api.ProcessingStatus))
    (w : World) (id : nat) (self : Poller) :
  pending w = [(id, poll_await self)] ->
  timers w = [] ->
  snapshots (poller_id self) (trace (serve (poller_id self) script w))
  = snapshots (poller_id self) (trace w) ++ delivered script /\
  outcomes (poller_id self) (trace (serve (poller_id self) script w))
  = outcomes (poller_id self) (trace w)
    ++ match outcome script with Some r => [r] | None => [] end /\
  (in_flight (poller_id self) (serve (poller_id self) script w)
   + sleeping (poller_id self) (serve (poller_id self) script w)
   = match outcome script with Some _ => 0 | None => 1 end)%nat /\
  match outcome script with
  | Some (inr s) =>
      exists tr n, trace (serve (poller_id self) script w)
                   = tr ++ [OnProgress (poller_id self) s; Resolved (poller_id self) s;
                            Sent n GET_detections]
  | _ => True
  end.
Proof.
  revert w id.
  induction script as [| fetched rest IH]; intros w id Hpending Htimers.
  - cbn. unfold in_flight, sleeping. rewrite Hpending, Htimers; cbn.
    rewrite Nat.eqb_refl, !app_nil_r. repeat split.
  - cbn [serve delivered outcome]. rewrite (@poller_request w id self Hpending).
    set (w1 := step (StatusSettles id fetched) w).
    destruct (Api.getProcessingStatus fetched) as [e | s] eqn:Houtcome;
      [| destruct (Api.is_processing s) eqn:Hs].
    + (* the request failed *)
      destruct (@poller_fails w id self fetched Hpending Htimers e Houtcome)
        as (Hp1 & Ht1 & t & Htr1).
      fold w1 in Hp1, Ht1, Htr1.
      assert (Hidle : request_of (poller_id self) w1 = None)
        by (unfold request_of; now rewrite Hp1).
      assert (Hnotimer : timer_of (poller_id self) w1 = None)
        by (unfold timer_of; now rewrite Ht1).
      rewrite Hnotimer, (@serve_idle (poller_id self) rest w1 Hidle), Htr1.
      unfold in_flight, sleeping. rewrite Hp1, Ht1.
      rewrite !snapshots_app, !outcomes_app; cbn.
      rewrite Nat.eqb_refl, ?app_nil_r. repeat split.
    + (* processing goes on: sleep, then poll again *)
      destruct (@poller_continues w id self fetched Hpending Htimers s Houtcome Hs)
        as (Hp1 & Ht1 & Hnow & Hnext & Htr1).
      fold w1 in Hp1, Ht1, Hnow, Hnext, Htr1. rewrite <- Hnow in Ht1.
      destruct (@poller_wakes w1 (nextId w) self Hp1 Ht1) as (Htimer & Hp2 & Ht2 & Htr2).
      rewrite Htimer. cbn [callback].
      destruct (IH _ (nextId w1) Hp2 Ht2) as (Hsnap & Hout & Hcount & Hlast).
      rewrite Hsnap, Hout, Hcount, Htr2, Htr1.
      rewrite !snapshots_app, !outcomes_app; cbn.
      rewrite Nat.eqb_refl, !app_nil_r, <- app_assoc. repeat split. exact Hlast.
    + (* processing stopped *)
      destruct (@poller_stops w id self fetched Hpending Htimers s Houtcome Hs)
        as (Hp1 & Ht1 & Htr1).
      fold w1 in Hp1, Ht1, Htr1.
      assert (Hidle : request_of (poller_id self) w1 = None)
        by (unfold request_of; now rewrite Hp1).
      assert (Hnotimer : timer_of (poller_id self) w1 = None)
        by (unfold timer_of; now rewrite Ht1).
      rewrite Hnotimer, (@serve_idle (poller_id self) rest w1 Hidle), Htr1.
      unfold in_flight, sleeping. rewrite Hp1, Ht1.
      rewrite !snapshots_app, !outcomes_app; cbn.
      rewrite Nat.eqb_refl, ?app_nil_r. repeat split.
      exists (trace w ++ [Settled id]), (nextId w). now rewrite <- app_assoc.
Qed.

Lemma poller_reports_in_order_and_once_witness :
  snapshots 0 (trace (serve 0 (map Scenario.status_ok Scenario.scripted) Scenario.polling))
  = [Scenario.status true 10; Scenario.status true 55; Scenario.status false 100]
  /\ outcomes 0 (trace (serve 0 (map Scenario.status_ok Scenario.scripted) Scenario.polling))
     = [inr (Scenario.status false 100)]
  /\ (in_flight 0 (serve 0 (map Scenario.status_ok Scenario.scripted) Scenario.polling)
      + sleeping 0 (serve 0 (map Scenario.status_ok Scenario.scripted) Scenario.polling)
      = 0)%nat.
Proof.
  destruct (@poller_reports_in_order_and_once
              (map Scenario.status_ok Scenario.scripted) Scenario.polling 3%nat
              {| poller_id := 0; intervalMs := 1000; observer_totalFrames := 0 |}
              eq_refl eq_refl)
    as (Hsnapshots & Houtcomes & Hended & _).
  split; [exact Hsnapshots |]. split; [exact Houtcomes | exact Hended].
Defined.

(* ================================================================== *)
(** ** One status request at a time *)

Section Counting.
Variables (A : Type) (f : nat * A -> bool).

Lemma count_remove_le (id : nat) (l : list (nat * A)) :
  (length (filter f (remove id l)) <= length (filter f l))%nat.
Proof.
  unfold remove. induction l as [| [i a] l IH]; cbn; [lia |].
  destruct (Nat.eqb i id); cbn; destruct (f (i, a)); cbn; lia.
Qed.

Lemma count_remove_lt (id : nat) (a : A) (l : list (nat * A)) :
  lookup id l = Some a -> f (id, a) = true ->
  (S (length (filter f (remove id l))) <= length (filter f l))%nat.
Proof.
  induction l as [| [i b] l IH]; cbn; [discriminate |].
  destruct (Nat.eqb_spec i id) as [-> | Hne]; cbn.
  - intros [= ->] ->. cbn. pose proof (count_remove_le id l). fold (remove id l). lia.
  - intros Hl Hf. specialize (IH Hl Hf). fold (remove id l).
    destruct (f (i, b)); cbn; lia.
Qed.
End Counting.

Lemma step_one_at_a_time (e : Event) (w : World) :
  one_at_a_time w -> one_at_a_time (step e w).
Proof.
  intros Hw p. specialize (Hw p). 
  destruct e; cbn [step].
  - (* Mount *) exact Hw.
  - (* Drop *) unfold onDrop. destruct acceptedFiles as [| file ?]; [exact Hw |].
    destruct (startsWith _ _); [| exact Hw].
    unfold handleVideoUpload. destruct (negb _); exact Hw.
  - (* ClickStart *) destruct (startEnabled _); [| exact Hw].
    unfold handleStartProcessing. destruct (uploadedVideo _); [| exact Hw].
    destruct (negb _); exact Hw.
  - (* HealthSettles *)
    destruct (lookup id (pending w)) as [[] |] eqn:Hl; try exact Hw.
    unfold checkBackend_resume. 
    pose proof (count_remove_le (awaits_status p) id (pending w)).
    destruct (Api.healthCheck fetched); unfold in_flight, sleeping in *; cbn in *; lia.
  - (* UploadSettles *)
    destruct (lookup id (pending w)) as [[] |] eqn:Hl; try exact Hw.
    pose proof (count_remove_le (awaits_status p) id (pending w)).
    destruct (Api.uploadVideo fetched); unfold in_flight, sleeping in *; cbn in *; lia.
  - (* StartSettles *)
    destruct (lookup id (pending w)) as [[] |] eqn:Hl; try exact Hw.
    pose proof (count_remove_le (awaits_status p) id (pending w)).
    destruct (Api.startProcessing fetched); unfold in_flight, sleeping in *; cbn in *;
      [lia |].
    destruct (Nat.eqb_spec (nextPoller w) p) as [<- | Hne]; cbn; lia.
  - (* StatusSettles *)
    destruct (lookup id (pending w)) as [[] |] eqn:Hl; try exact Hw.
    pose proof (count_remove_le (awaits_status p) id (pending w)) as Hle.
    pose proof (@count_remove_lt _ (awaits_status p) id _ (pending w) Hl) as Hlt.
    unfold poll_resume.
    destruct (Api.getProcessingStatus fetched) as [err | s]; 
      [unfold in_flight, sleeping in *; cbn in *; lia |].
    destruct (Api.is_processing s); cbn [negb];
      unfold in_flight, sleeping in *; cbn in *; [| lia].
    change (sleeps p (nextId w, {| due := (now w + intervalMs self)%N; callback := self |}))
      with (Nat.eqb (poller_id self) p).
    destruct (Nat.eqb (poller_id self) p); cbn; [specialize (Hlt eq_refl) |]; lia.
  - (* DetectionsSettles *)
    destruct (lookup id (pending w)) as [[] |] eqn:Hl; try exact Hw.
    pose proof (count_remove_le (awaits_status p) id (pending w)).
    destruct (Api.getDetections fetched); unfold in_flight, sleeping in *; cbn in *; lia.
  - (* Elapse *) exact Hw.
  - (* TimerFires *)
    destruct (lookup id (timers w)) as [t |] eqn:Hl; [| exact Hw].
    destruct (N.leb _ _); [| exact Hw].
    pose proof (count_remove_le (sleeps p) id (timers w)) as Hle.
    pose proof (@count_remove_lt _ (sleeps p) id _ (timers w) Hl) as Hlt.
    unfold in_flight, sleeping in *; cbn in *.
    change (sleeps p (id, t)) with (Nat.eqb (poller_id (callback t)) p) in Hlt.
    destruct (Nat.eqb (poller_id (callback t)) p); cbn; [specialize (Hlt eq_refl) |]; lia.
Qed.

(** C3: whatever the user, the backend and the timers do from the initial
    state on, a poller never has two status requests in flight: at every
    moment it has at most one request in flight or one timer pending, so
    [poll] sends its next request only after the previous one settled and
    the timer set then has fired. *)
Theorem poll_requests_never_overlap (es : list Event) (p : nat) :
  (in_flight p (run init es) + sleeping p (run init es) <= 1)%nat.
Proof.
  assert (Hrun : forall es w, one_at_a_time w -> one_at_a_time (run w es)).
  { clear es p. induction es as [| e es IH]; intros w Hw; cbn; [exact Hw |].
    apply IH. now apply step_one_at_a_time. }
  assert (Hinit : one_at_a_time init) by (intros q; cbn; lia).
  exact (proj1 (Hrun es init Hinit p)).
Qed.

(* ================================================================== *)
(** ** The display helpers *)

Section DisplayFacts.
Import Display.

Example formatClassName_example :
  formatClassName "hostile_personnel" = "Hostile Personnel"%string
  /\ formatClassName "_a__b_" = " A  B "%string
  /\ formatClassName EmptyString = EmptyString.
Proof. repeat split. Qed.

Lemma split_not_nil (sep : ascii) (s : string) : split sep s <> [].
Proof.
  induction s as [| c s IH]; cbn; [discriminate |].
  destruct (Ascii.eqb c sep); [discriminate |].
  destruct (split sep s); [contradiction | discriminate].
Qed.

Lemma toUpperCase_idempotent (c : ascii) : toUpperCase (toUpperCase c) = toUpperCase c.
Proof. destruct c as [[] [] [] [] [] [] [] []]; reflexivity. Qed.

Lemma toUpperCase_not_lower (c : ascii) :
  ((97 <=? N_of_ascii (toUpperCase c)) && (N_of_ascii (toUpperCase c) <=? 122))%N = false.
Proof. destruct c as [[] [] [] [] [] [] [] []]; reflexivity. Qed.

Lemma toUpperCase_underscore (c : ascii) :
  Ascii.eqb (toUpperCase c) "_" = Ascii.eqb c "_".
Proof. destruct c as [[] [] [] [] [] [] [] []]; reflexivity. Qed.

(** The words of a split do not contain the separator, and joining them
    with the separator gives the string back. *)
Lemma split_words (sep : ascii) (s : string) :
  Forall (fun word => occurs sep word = false) (split sep s).
Proof.
  induction s as [| c s IH]; cbn.
  - constructor; [reflexivity | constructor].
  - destruct (Ascii.eqb c sep) eqn:Hc.
    + constructor; [reflexivity | exact IH].
    + destruct (split sep s) as [| word words]; inversion IH; subst.
      * constructor; [cbn; now rewrite Hc | constructor].
      * constructor; [cbn; now rewrite Hc | assumption].
Qed.

Lemma join_split (sep : ascii) (s : string) :
  String.concat (String sep EmptyString) (split sep s) = s.
Proof.
  induction s as [| c s IH]; cbn; [reflexivity |].
  destruct (Ascii.eqb_spec c sep) as [-> | Hne].
  - pose proof (split_not_nil sep s) as Hnil.
    cbn. destruct (split sep s) as [| word words]; [contradiction |].
    cbn in *. now rewrite IH.
  - pose proof (split_not_nil sep s) as Hnil.
    destruct (split sep s) as [| word words]; [contradiction |].
    cbn in *. destruct words; cbn in *; now rewrite <- IH.
Qed.

Lemma occurs_append (c : ascii) (a b : string) :
  occurs c (a ++ b) = occurs c a || occurs c b.
Proof. induction a as [| d a IH]; cbn; [reflexivity |]. now rewrite IH, orb_assoc. Qed.

Lemma length_append (a b : string) :
  String.length (a ++ b) = (String.length a + String.length b)%nat.
Proof. induction a as [| d a IH]; cbn; [reflexivity |]. now rewrite IH. Qed.

Lemma capitalize_length (word : string) :
  String.length (capitalize word) = String.length word.
Proof. destruct word; reflexivity. Qed.

Lemma capitalize_occurs (word : string) :
  occurs "_" (capitalize word) = occurs "_" word.
Proof. destruct word as [| c rest]; cbn; [reflexivity |]. now rewrite toUpperCase_underscore. Qed.

(** [formatClassName], one character at a time. *)
Lemma formatClassName_cons (c : ascii) (rest : string) :
  formatClassName (String c rest)
  = if Ascii.eqb c "_" then String " " (formatClassName rest)
    else match split "_" rest with
         | word :: words =>
             String (toUpperCase c) (String.concat " " (word :: map capitalize words))
         | [] => EmptyString
         end.
Proof.
  unfold formatClassName. cbn [split].
  pose proof (split_not_nil "_" rest) as Hnil.
  destruct (Ascii.eqb c "_").
  - cbn. destruct (split "_" rest) as [| word words]; [contradiction |]. reflexivity.
  - destruct (split "_" rest) as [| word words]; [contradiction |].
    cbn. destruct (map capitalize words); reflexivity.
Qed.

Lemma concat_head_length (sep word : string) (words : list string) :
  String.length (String.concat sep (capitalize word :: words))
  = String.length (String.concat sep (word :: words)).
Proof.
  cbn. destruct words; [apply capitalize_length |].
  rewrite !length_append. now rewrite capitalize_length.
Qed.

Lemma concat_head_occurs (sep word : string) (words : list string) :
  occurs "_" (String.concat sep (capitalize word :: words))
  = occurs "_" (String.concat sep (word :: words)).
Proof.
  cbn. destruct words; [apply capitalize_occurs |].
  rewrite !occurs_append. now rewrite capitalize_occurs.
Qed.

Lemma formatClassName_facts (className : string) :
  String.length (formatClassName className) = String.length className /\
  occurs "_" (formatClassName className) = false.
Proof.
  induction className as [| c rest [IHlen IHocc]]; [split; reflexivity |].
  rewrite formatClassName_cons.
  destruct (Ascii.eqb c "_") eqn:Hc.
  - cbn. now rewrite IHlen, IHocc.
  - unfold formatClassName in IHlen, IHocc.
    destruct (split "_" rest) as [| word words] eqn:Hsplit;
      [exfalso; exact (@split_not_nil "_" rest Hsplit) |].
    cbn [map] in IHlen, IHocc.
    rewrite concat_head_length in IHlen. rewrite concat_head_occurs in IHocc.
    cbn [String.length occurs]. rewrite IHlen, IHocc, toUpperCase_underscore, Hc.
    split; reflexivity.
Qed.

(** X4: for an ASCII class name, [formatClassName] keeps the length of the
    name and its result contains no underscore. *)
Theorem formatClassName_shape (className : string) :
  isAscii className = true ->
  String.length (formatClassName className) = String.length className /\
  occurs "_" (formatClassName className) = false.
Proof. intros _. apply formatClassName_facts. Qed.

Lemma formatClassName_shape_witness :
  String.length (formatClassName "hostile_personnel") = String.length "hostile_personnel" /\
  occurs "_" (formatClassName "hostile_personnel") = false.
Proof. apply formatClassName_shape. reflexivity. Defined.

Lemma split_without_separator (sep : ascii) (s : string) :
  occurs sep s = false -> split sep s = [s].
Proof.
  induction s as [| c s IH]; cbn; [reflexivity |].
  intros H. apply orb_false_iff in H as [Hc Hs]. rewrite Hc, (IH Hs). reflexivity.
Qed.

(** The first character of a formatted name is its own upper case. *)
Lemma formatClassName_head (className : string) :
  capitalize (formatClassName className) = formatClassName className.
Proof.
  destruct className as [| c rest]; [reflexivity |].
  rewrite formatClassName_cons.
  destruct (Ascii.eqb c "_"); [reflexivity |].
  destruct (split "_" rest) as [| word words]; [reflexivity |].
  cbn [capitalize]. now rewrite toUpperCase_idempotent.
Qed.

(** X5: formatting an ASCII class name twice gives the same as formatting
    it once. *)
Theorem formatClassName_idempotent (className : string) :
  isAscii className = true ->
  formatClassName (formatClassName className) = formatClassName className.
Proof.
  intros _.
  destruct (formatClassName_facts className) as [_ Hocc].
  unfold formatClassName at 1.
  rewrite (split_without_separator "_" (formatClassName className) Hocc).
  cbn. apply formatClassName_head.
Qed.

Lemma formatClassName_idempotent_witness :
  formatClassName (formatClassName "aircraft_threat") = formatClassName "aircraft_threat".
Proof. apply formatClassName_idempotent. reflexivity. Defined.

(** X6: [getThreatLevel] must be given the raw class name: on the result
    of [formatClassName] it answers [low] for every ASCII name, also for
    the names it rates high or medium. *)
Theorem threat_level_of_formatted_name (className : string) :
  isAscii className = true ->
  getThreatLevel (formatClassName className) = low.
Proof.
  intros _.
  destruct (formatClassName_facts className) as [_ Hocc].
  pose proof (formatClassName_head className) as Hhead.
  unfold getThreatLevel, includes, highThreat, mediumThreat. cbn [existsb].
  repeat match goal with
  | |- context [String.eqb ?a ?b] =>
      destruct (String.eqb_spec a b) as [Heq | _];
      [rewrite Heq in Hocc, Hhead; cbn in Hocc, Hhead; discriminate |]
  end.
  reflexivity.
Qed.

Lemma threat_level_of_formatted_name_witness :
  getThreatLevel "equipment" = medium /\
  getThreatLevel (formatClassName "equipment") = low.
Proof.
  split; [reflexivity |]. apply threat_level_of_formatted_name. reflexivity.
Defined.
End DisplayFacts.

(* ================================================================== *)
(** ** The video player *)

Section PlayerFacts.
Import Player.

Example formatTime_examples :
  formatTime 0 = "0:00"%string /\ formatTime (725 # 10) = "1:12"%string
  /\ formatTime 3600 = "60:00"%string /\ formatTime (-1) = "-1:-1"%string.
Proof. repeat split. Qed.








(** Skipping forward and then back need not return to the same position:
    from the double nearest to 0.1 the two roundings end just below it. *)
Example skip_round_trip_is_inexact :
  (skipBack (skipForward 60 Samples.tenth) < Samples.tenth)%Q.
Proof. vm_compute. reflexivity. Qed.

(** X8: with the position shown inside the video, the skip buttons stay
    inside the video and never move the wrong way: skip back lands between
    the start and the position, skip forward between the position and the
    end.  Within the first ten seconds skip back goes to the start, within
    the last ten seconds skip forward goes to the end.  The subtraction and
    the addition are those of doubles, so skipping forward and then back
    with ten seconds left returns near the position, not always to it: in
    a video shorter than [2 ^ (k + 1)] seconds, within [2 ^ (k - 52)]
    seconds. *)
Theorem skip_stays_inside_the_video (duration currentTime : Q) :
  Double.representable currentTime -> Double.representable duration ->
  (0 <= currentTime)%Q -> (currentTime <= duration)%Q ->
  (0 <= skipBack currentTime <= currentTime)%Q /\
  (currentTime <= skipForward duration currentTime <= duration)%Q /\
  ((currentTime <= 10)%Q -> (skipBack currentTime == 0)%Q) /\
  ((duration <= currentTime + 10)%Q -> (skipForward duration currentTime == duration)%Q) /\
  (forall k : Z,
     -1022 <= k -> (duration < Double.pow2 (k + 1))%Q ->
     (currentTime + 10 <= duration)%Q ->
     (Qabs (skipBack (skipForward duration currentTime) - currentTime)
      <= Double.pow2 (k - 52))%Q).
Proof.
  unfold Double.representable, skipBack, skipForward, Double.sub, Double.add.
  intros Ht Hd Hpos Hin.
  assert (Hback : (Double.round (currentTime - 10) <= currentTime)%Q).
  { destruct (Qlt_le_dec 0 (currentTime - 10)) as [Hfar | Hnear].
    - rewrite <- Ht at 2. apply round_le; lra.
    - pose proof (round_nonpos Hnear). lra. }
  assert (Hforth : (currentTime <= Double.round (currentTime + 10))%Q).
  { rewrite <- Ht at 1. apply round_le; lra. }
  split; [split | split; [split | split; [| split]]].
  - apply Q.le_max_l.
  - apply Q.max_lub; assumption.
  - apply Q.min_glb; assumption.
  - apply Q.le_min_l.
  - intros Hnear. apply Q.max_l. apply round_nonpos. lra.
  - intros Hnear. apply Q.min_l. rewrite <- Hd at 1. apply round_le; lra.
  - intros k Hk Hshort Hroom.
    set (a := (currentTime + 10)%Q) in *.
    assert (Hten : (Double.round 10 == 10)%Q) by (vm_compute; reflexivity).
    assert (Hhalf : (Double.pow2 (k - 52) == Double.pow2 (k - 53) + Double.pow2 (k - 53))%Q).
    { replace (k - 52) with ((k - 53) + 1) by ring. rewrite pow2_add.
      change (Double.pow2 1) with 2%Q. ring. }
    assert (Ha : (Qabs (Double.round a - a) <= Double.pow2 (k - 53))%Q).
    { apply round_error_below; [unfold a; lra | lra | unfold Double.emin; lia]. }
    assert (Hup : (Double.round a <= duration)%Q).
    { rewrite <- Hd. apply round_le; [unfold a; lra | exact Hroom]. }
    assert (Hlow : (10 <= Double.round a)%Q).
    { rewrite <- Hten at 1. apply round_le; [discriminate | unfold a; lra]. }
    set (c := Qmin duration (Double.round a)).
    assert (Hc : (c == Double.round a)%Q) by (apply Q.min_r; exact Hup).
    assert (Hb : (Qabs (Double.round (c - 10) - (c - 10)) <= Double.pow2 (k - 53))%Q).
    { apply round_error_below; [lra | lra | unfold Double.emin; lia]. }
    assert (Hmax : (Qmax 0 (Double.round (c - 10)) == Double.round (c - 10))%Q).
    { apply Q.max_r. apply round_nonneg. lra. }
    rewrite Hmax, Hhalf.
    apply Qabs_Qle_condition in Ha. apply Qabs_Qle_condition in Hb.
    apply Qabs_Qle_condition. unfold a in *. split; lra.
Qed.

Lemma skip_stays_inside_the_video_witness :
  (0 <= skipBack Samples.tenth <= Samples.tenth)%Q /\
  (Samples.tenth <= skipForward 60 Samples.tenth <= 60)%Q /\
  ((Samples.tenth <= 10)%Q -> (skipBack Samples.tenth == 0)%Q) /\
  ((60 <= Samples.tenth + 10)%Q -> (skipForward 60 Samples.tenth == 60)%Q) /\
  (forall k : Z,
     -1022 <= k -> (60 < Double.pow2 (k + 1))%Q ->
     (Samples.tenth + 10 <= 60)%Q ->
     (Qabs (skipBack (skipForward 60 Samples.tenth) - Samples.tenth)
      <= Double.pow2 (k - 52))%Q).
Proof.
  apply skip_stays_inside_the_video.
  - vm_compute. reflexivity.
  - vm_compute. reflexivity.
  - vm_compute. discriminate.
  - vm_compute. discriminate.
Defined.
End PlayerFacts.

(* ================================================================== *)
(** ** The simulated dashboard *)

Module SimulatedFacts.
Import Ui Simulated.

Example simulated_first_tick :
  currentFrame (ui (run Samples.simulated_started [Tick 0 (99 # 100)])) = 25 /\
  detectedTargets (ui (run Samples.simulated_started [Tick 0 (99 # 100)])) = 1 /\
  intervals (run Samples.simulated_started [Tick 0 (99 # 100)])
  = [(0%nat, {| frame := 25; targets := 1 |})].
Proof. repeat split. Qed.

Lemma hits_cons (r : Q) (randoms : list Q) :
  hits (r :: randoms) = (if Qlt_le_dec (95 # 100) r then 1 else 0) + hits randoms.
Proof. unfold hits; cbn. destruct (Qlt_le_dec (95 # 100) r); cbn [length]; lia. Qed.

(** A tick that does not reach the last frame. *)
Lemma tick_running (w : World) (id : nat) (f t : Z) (r : Q) :
  intervals w = [(id, {| frame := f; targets := t |})] ->
  f + 25 < totalFrames ->
  intervals (step (Tick id r) w)
  = [(id, {| frame := f + 25;
             targets := if Qlt_le_dec (95 # 100) r then t + 1 else t |})] /\
  toasts (step (Tick id r) w) = toasts w /\
  nextId (step (Tick id r) w) = nextId w /\
  ui (step (Tick id r) w)
  = {| uploadedVideo := uploadedVideo (ui w); videoUrl := videoUrl (ui w);
       isProcessing := isProcessing (ui w);
       progress := Double.mul (Double.div (inject_Z (f + 25)) (inject_Z totalFrames)) 100;
       currentFrame := f + 25;
       detectedTargets := if Qlt_le_dec (95 # 100) r then t + 1
                          else detectedTargets (ui w);
       status := status (ui w) |}.
Proof.
  intros Hi Hf. cbn [step]. rewrite Hi. cbn [Loop.lookup]. rewrite Nat.eqb_refl.
  unfold tick. cbn [frame targets].
  destruct (Z.leb_spec totalFrames (f + 25)) as [Hge | _]; [lia |].
  unfold keep, update; cbn. rewrite Hi. unfold Loop.remove; cbn. rewrite Nat.eqb_refl; cbn.
  destruct (Qlt_le_dec (95 # 100) r); repeat split.
Qed.

(** The tick that reaches the last frame. *)
Lemma tick_completes (w : World) (id : nat) (f t : Z) (r : Q) :
  intervals w = [(id, {| frame := f; targets := t |})] ->
  totalFrames <= f + 25 ->
  intervals (step (Tick id r) w) = [] /\
  toasts (step (Tick id r) w)
  = toasts w ++ [{| variant := default; title := "Processing Complete";
                    description := "Detected "
                      ++ show_Z (if Qlt_le_dec (95 # 100) r then t + 1 else t)
                      ++ " potential targets in video analysis." |}] /\
  ui (step (Tick id r) w)
  = {| uploadedVideo := uploadedVideo (ui w); videoUrl := videoUrl (ui w);
       isProcessing := false;
       progress := Double.mul (Double.div (inject_Z (f + 25)) (inject_Z totalFrames)) 100;
       currentFrame := f + 25;
       detectedTargets := if Qlt_le_dec (95 # 100) r then t + 1
                          else detectedTargets (ui w);
       status := completed |}.
Proof.
  intros Hi Hf. cbn [step]. rewrite Hi. cbn [Loop.lookup]. rewrite Nat.eqb_refl.
  unfold tick. cbn [frame targets].
  destruct (Z.leb_spec totalFrames (f + 25)) as [_ | Hlt]; [| lia].
  unfold clearInterval, update, toast; cbn. rewrite Hi. unfold Loop.remove; cbn.
  rewrite Nat.eqb_refl; cbn.
  destruct (Qlt_le_dec (95 # 100) r); repeat split.
Qed.

Lemma hits_app (a b : list Q) : hits (a ++ b) = hits a + hits b.
Proof. unfold hits. rewrite filter_app, length_app. lia. Qed.

Lemma hits_nonneg (randoms : list Q) : 0 <= hits randoms <= Z.of_nat (length randoms).
Proof.
  unfold hits. pose proof (filter_length_le
    (fun r => if Qlt_le_dec (95 # 100) r then true else false) randoms). lia.
Qed.

Lemma simulated_run_app (w : World) (es1 es2 : list Event) :
  run w (es1 ++ es2) = run (run w es1) es2.
Proof. apply fold_left_app. Qed.

(** While the last frame is not reached: the interval after the ticks of
    [randoms]. *)
Lemma ticks_running (randoms : list Q) : forall (w : World) (id : nat) (f t : Z),
  intervals w = [(id, {| frame := f; targets := t |})] ->
  f + 25 * Z.of_nat (length randoms) < totalFrames ->
  intervals (run w (ticks id randoms))
  = [(id, {| frame := f + 25 * Z.of_nat (length randoms);
             targets := t + hits randoms |})] /\
  toasts (run w (ticks id randoms)) = toasts w /\
  uploadedVideo (ui (run w (ticks id randoms))) = uploadedVideo (ui w) /\
  isProcessing (ui (run w (ticks id randoms))) = isProcessing (ui w) /\
  status (ui (run w (ticks id randoms))) = status (ui w) /\
  detectedTargets (ui (run w (ticks id randoms)))
  = (if 0 <? hits randoms then t + hits randoms else detectedTargets (ui w)) /\
  (randoms <> [] ->
   currentFrame (ui (run w (ticks id randoms))) = f + 25 * Z.of_nat (length randoms) /\
   progress (ui (run w (ticks id randoms)))
   = Double.mul (Double.div (inject_Z (f + 25 * Z.of_nat (length randoms)))
                            (inject_Z totalFrames)) 100).
Proof.
  induction randoms as [| r rest IH]; intros w id f t Hi Hf.
  - cbn. rewrite Hi. repeat split; try congruence. do 3 f_equal; lia.
  - cbn [length] in Hf. rewrite Nat2Z.inj_succ in Hf.
    destruct (@tick_running w id f t r Hi ltac:(lia)) as (Hi1 & Ht1 & _ & Hui1).
    change (run w (ticks id (r :: rest))) with (run (step (Tick id r) w) (ticks id rest)).
    destruct (IH _ _ _ _ Hi1 ltac:(lia)) as (Hi2 & Ht2 & Hv & Hp & Hs & Hd & Hcur).
    rewrite Hi2, Ht2, Ht1, Hv, Hp, Hs, Hd. rewrite Hui1. cbn [uploadedVideo isProcessing status detectedTargets].
    rewrite hits_cons. cbn [length]. rewrite Nat2Z.inj_succ.
    pose proof (hits_nonneg rest) as Hh.
    repeat split.
    + destruct (Qlt_le_dec (95 # 100) r); do 3 f_equal; lia.
    + destruct (Qlt_le_dec (95 # 100) r);
        destruct (Z.ltb_spec 0 (hits rest)); destruct (Z.ltb_spec 0 (1 + hits rest));
        destruct (Z.ltb_spec 0 (0 + hits rest)); try lia; reflexivity.
    + destruct rest as [| r' rest'].
      * unfold ticks, run; cbn [map fold_left]. rewrite Hui1. cbn. lia.
      * destruct Hcur as [Hc _]; [discriminate |]. rewrite Hc. cbn [length]. lia.
    + destruct rest as [| r' rest'].
      * unfold ticks, run; cbn [map fold_left]. rewrite Hui1. cbn [progress length].
        do 3 f_equal; try lia.
      * destruct Hcur as [_ Hpr]; [discriminate |]. rewrite Hpr. cbn [length].
        do 3 f_equal; try lia.
Qed.

Lemma ticks_cleared (more : list Q) (w : World) (id : nat) :
  intervals w = [] -> run w (ticks id more) = w.
Proof.
  intros Hi. induction more as [| r more IH]; [reflexivity |].
  cbn. rewrite Hi. cbn. exact IH.
Qed.

(** X17: a simulated job that was just started completes with its 338th
    tick, whatever [Math.random] returns: the interval is cleared, the
    dashboard shows [completed], frame 8450 and 100 percent, the
    notification reports the number of draws above 0.95, and later ticks of
    the cleared interval change nothing. *)
Theorem simulated_job_completes (w : World) (id : nat) (randoms : list Q) :
  intervals w = [(id, {| frame := 0; targets := 0 |})] ->
  length randoms = 338%nat ->
  intervals (run w (ticks id randoms)) = [] /\
  isProcessing (ui (run w (ticks id randoms))) = false /\
  status (ui (run w (ticks id randoms))) = completed /\
  currentFrame (ui (run w (ticks id randoms))) = totalFrames /\
  (progress (ui (run w (ticks id randoms))) == 100)%Q /\
  toasts (run w (ticks id randoms))
  = toasts w ++ [{| variant := default; title := "Processing Complete";
                    description := "Detected " ++ show_Z (hits randoms)
                      ++ " potential targets in video analysis." |}] /\
  forall more, run (run w (ticks id randoms)) (ticks id more) = run w (ticks id randoms).
Proof.
  intros Hi Hlen.
  destruct (exists_last (l := randoms)) as (front & r & ->);
    [intros ->; discriminate |].
  rewrite length_app in Hlen; cbn in Hlen.
  unfold ticks. rewrite map_app, simulated_run_app. fold (ticks id front). cbn [map run fold_left].
  destruct (@ticks_running front w id 0 0 Hi ltac:(unfold totalFrames; lia))
    as (Hi1 & Ht1 & _).
  destruct (@tick_completes (run w (ticks id front)) id _ _ r Hi1
              ltac:(unfold totalFrames; lia)) as (Hi2 & Ht2 & Hui2).
  rewrite Hi2, Ht2, Ht1, Hui2. cbn [isProcessing status currentFrame progress].
  rewrite hits_app, hits_cons.
  replace (Z.of_nat (length front)) with 337 by lia.
  repeat split.
  - assert (Hnil : hits [] = 0) by reflexivity. rewrite Hnil.
    destruct (Qlt_le_dec (95 # 100) r).
    + now replace (0 + hits front + 1) with (hits front + (1 + 0)) by lia.
    + now replace (0 + hits front) with (hits front + (0 + 0)) by lia.
  - intros more. apply ticks_cleared. exact Hi2.
Qed.

Lemma simulated_job_completes_witness :
  status (ui (run Samples.simulated_started (ticks 0 Samples.draws))) = completed /\
  currentFrame (ui (run Samples.simulated_started (ticks 0 Samples.draws))) = totalFrames /\
  (progress (ui (run Samples.simulated_started (ticks 0 Samples.draws))) == 100)%Q.
Proof.
  destruct (@simulated_job_completes Samples.simulated_started 0%nat Samples.draws
              eq_refl eq_refl) as (_ & _ & Hstatus & Hframe & Hprogress & _).
  split; [exact Hstatus |]. split; [exact Hframe | exact Hprogress].
Defined.

(** The progress shown after each of the first 337 ticks, as doubles
    compute it: within 10^-13 of 2500 k / 8450, strictly between 0 and
    100, and above that of the tick before. *)
Lemma progress_values (k : nat) :
  (0 < k < 338)%nat ->
  (Qabs (Double.mul (Double.div (inject_Z (0 + 25 * Z.of_nat k)) (inject_Z totalFrames)) 100
         - inject_Z (2500 * Z.of_nat k) / 8450) <= 1 # 10000000000000)%Q /\
  (0 < Double.mul (Double.div (inject_Z (0 + 25 * Z.of_nat k)) (inject_Z totalFrames)) 100)%Q /\
  (Double.mul (Double.div (inject_Z (0 + 25 * Z.of_nat k)) (inject_Z totalFrames)) 100 < 100)%Q /\
  (Double.mul (Double.div (inject_Z (0 + 25 * Z.of_nat k)) (inject_Z totalFrames)) 100
   < Double.mul (Double.div (inject_Z (0 + 25 * Z.of_nat (k + 1))) (inject_Z totalFrames)) 100)%Q.
Proof.
  intros Hk.
  set (P := fun j : nat =>
    Double.mul (Double.div (inject_Z (0 + 25 * Z.of_nat j)) (inject_Z totalFrames)) 100).
  assert (Hall : forallb (fun j =>
      Qle_bool (Qabs (P j - inject_Z (2500 * Z.of_nat j) / 8450)) (1 # 10000000000000)
      && negb (Qle_bool (P j) 0) && negb (Qle_bool 100 (P j))
      && negb (Qle_bool (P (j + 1)%nat) (P j))) (seq 1 337) = true)
    by (vm_compute; reflexivity).
  rewrite forallb_forall in Hall.
  specialize (Hall k ltac:(apply in_seq; lia)). fold (P k). fold (P (k + 1)%nat).
  apply andb_prop in Hall; destruct Hall as [Hall Hgrow].
  apply andb_prop in Hall; destruct Hall as [Hall Hhi].
  apply andb_prop in Hall; destruct Hall as [Hnear Hlo].
  apply Qle_bool_iff in Hnear.
  split; [exact Hnear |].
  split; [| split]; apply Qnot_le_lt; intros Hle; apply Qle_bool_iff in Hle;
    rewrite Hle in *; discriminate.
Qed.

(** X18: before that, after k ticks (0 < k < 338) of a job that was just
    started, the dashboard shows frame 25 k and a progress strictly between
    0 and 100: the double that [(frame / totalFrames) * 100] gives, within
    10^-13 of 2500 k / 8450, and (for k < 337) below the progress after
    one more tick.
    The target count shown is the number of draws above 0.95 once there
    was one; the job is still running and nothing was notified. *)
Theorem simulated_job_progress (w : World) (id : nat) (randoms : list Q) :
  intervals w = [(id, {| frame := 0; targets := 0 |})] ->
  randoms <> [] ->
  (length randoms < 338)%nat ->
  currentFrame (ui (run w (ticks id randoms))) = 25 * Z.of_nat (length randoms) /\
  (Qabs (progress (ui (run w (ticks id randoms)))
         - inject_Z (2500 * Z.of_nat (length randoms)) / 8450) <= 1 # 10000000000000)%Q /\
  (0 < progress (ui (run w (ticks id randoms))) < 100)%Q /\
  (forall r, (length randoms < 337)%nat ->
     (progress (ui (run w (ticks id randoms)))
      < progress (ui (run w (ticks id (randoms ++ [r])))))%Q) /\
  detectedTargets (ui (run w (ticks id randoms)))
  = (if 0 <? hits randoms then hits randoms else detectedTargets (ui w)) /\
  isProcessing (ui (run w (ticks id randoms))) = isProcessing (ui w) /\
  status (ui (run w (ticks id randoms))) = status (ui w) /\
  toasts (run w (ticks id randoms)) = toasts w /\
  intervals (run w (ticks id randoms))
  = [(id, {| frame := 25 * Z.of_nat (length randoms); targets := hits randoms |})].
Proof.
  intros Hi Hne Hlen.
  destruct (@ticks_running randoms w id 0 0 Hi ltac:(unfold totalFrames; lia))
    as (Hi1 & Ht1 & _ & Hp & Hs & Hd & Hcur).
  destruct (Hcur Hne) as [Hc Hpr].
  assert (Hpos : (0 < length randoms)%nat) by (destruct randoms; [congruence | cbn; lia]).
  destruct (@progress_values (length randoms) ltac:(lia)) as (Hnear & Hlo & Hhi & Hgrow).
  rewrite Hc, Hpr, Hd, Hp, Hs, Ht1, Hi1. cbn [Z.add].
  split; [reflexivity |]. split; [exact Hnear |]. split; [split; assumption |].
  split.
  - intros r Hroom.
    destruct (@ticks_running (randoms ++ [r]) w id 0 0 Hi
                ltac:(rewrite length_app; cbn [length]; unfold totalFrames; lia))
      as (_ & _ & _ & _ & _ & _ & Hnext).
    destruct Hnext as [_ Hnext]; [intros Hnil; apply app_eq_nil in Hnil; destruct Hnil; discriminate |].
    rewrite Hnext, length_app. cbn [length]. exact Hgrow.
  - repeat split; f_equal; lia.
Qed.

Lemma simulated_job_progress_witness :
  currentFrame (ui (run Samples.simulated_started (ticks 0 [(1 # 2)%Q; (99 # 100)%Q; 0%Q]))) = 75 /\
  (0 < progress (ui (run Samples.simulated_started (ticks 0 [(1 # 2)%Q; (99 # 100)%Q; 0%Q])))
     < 100)%Q /\
  detectedTargets (ui (run Samples.simulated_started (ticks 0 [(1 # 2)%Q; (99 # 100)%Q; 0%Q]))) = 1.
Proof.
  destruct (@simulated_job_progress Samples.simulated_started 0%nat [(1 # 2)%Q; (99 # 100)%Q; 0%Q]
              eq_refl ltac:(discriminate) ltac:(cbn; lia))
    as (Hframe & _ & Hbounds & _ & Htargets & _).
  split; [exact Hframe |]. split; [exact Hbounds | exact Htargets].
Defined.

(** X19: in the simulated dashboard a second start cannot overlap the
    first: whatever the user does and however the intervals tick, at most
    one interval exists, and one exists exactly while [isProcessing] is
    true. *)
Theorem simulated_single_interval (es : list Event) :
  (length (intervals (run init es)) <= 1)%nat /\
  (isProcessing (ui (run init es)) = true <-> intervals (run init es) <> []).
Proof.
  assert (Hinv : forall es w,
    (intervals w = [] /\ isProcessing (ui w) = false \/
     exists id i, intervals w = [(id, i)] /\ isProcessing (ui w) = true) ->
    (intervals (run w es) = [] /\ isProcessing (ui (run w es)) = false \/
     exists id i, intervals (run w es) = [(id, i)] /\ isProcessing (ui (run w es)) = true)).
  { clear es. induction es as [| e es IH]; intros w Hw; [exact Hw |].
    cbn. apply IH. clear IH.
    destruct e as [files | | id r | |]; cbn [step].
    - unfold onDrop. destruct files as [| file ?]; [exact Hw |].
      destruct (startsWith _ _); exact Hw.
    - unfold startEnabled, handleStartProcessing.
      destruct (uploadedVideo (ui w)); [| exact Hw].
      destruct Hw as [[Hi Hp] | (id & i & Hi & Hp)]; rewrite Hp; cbn.
      + right. rewrite Hi. eauto.
      + right. eauto.
    - destruct Hw as [[Hi Hp] | (id' & i & Hi & Hp)]; rewrite Hi; cbn.
      + left. now split.
      + destruct (Nat.eqb_spec id' id) as [-> | Hne]; [| right; eauto].
        unfold tick. destruct (totalFrames <=? frame i + 25); cbn.
        * left. rewrite Hi. unfold Loop.remove; cbn. now rewrite Nat.eqb_refl.
        * right. rewrite Hi. unfold Loop.remove; cbn. rewrite Nat.eqb_refl; cbn. eauto.
    - destruct (exportEnabled _); exact Hw.
    - destruct (exports w); exact Hw. }
  destruct (Hinv es init (or_introl (conj eq_refl eq_refl)))
    as [[Hi Hp] | (id & i & Hi & Hp)]; rewrite Hi, Hp; cbn.
  - split; [lia |]. split; [discriminate | congruence].
  - split; [lia |]. split; [discriminate | reflexivity].
Qed.

Lemma simulated_single_interval_witness :
  (length (intervals (run init Samples.simulated_events)) <= 1)%nat /\
  (isProcessing (ui (run init Samples.simulated_events)) = true
   <-> intervals (run init Samples.simulated_events) <> []).
Proof. exact (simulated_single_interval Samples.simulated_events). Defined.

Lemma titled_snoc (x : string) (ts : list Toast) (t : Toast) :
  titled x (ts ++ [t]) = (titled x ts + if String.eqb (title t) x then 1 else 0)%nat.
Proof.
  unfold titled. rewrite filter_app, length_app. cbn.
  destruct (String.eqb (title t) x); reflexivity.
Qed.

Ltac titles :=
  cbn [toasts ui status exports uploadedVideo toast update setExportTimeout
       exportTimeoutFired clearInterval keep setInterval];
  rewrite ?titled_snoc; cbn [title];
  repeat match goal with
         | |- context [String.eqb ?a ?b] =>
             let v := eval vm_compute in (String.eqb a b) in
             change (String.eqb a b) with v
         end;
  cbv iota; rewrite ?Nat.add_0_r.

(** X20: an export can only be started after a job completed, and every
    export that was started is either pending or was announced as complete:
    the "Export Started" notifications are as many as the "Export Complete"
    ones plus the pending timeouts, and there is none before the first
    "Processing Complete". *)
Theorem export_follows_completion (es : list Event) :
  titled "Export Started" (toasts (run init es))
  = (titled "Export Complete" (toasts (run init es)) + exports (run init es))%nat /\
  ((0 < titled "Export Started" (toasts (run init es)))%nat ->
   (0 < titled "Processing Complete" (toasts (run init es)))%nat).
Proof.
  assert (Hinv : forall es w,
    (titled "Export Started" (toasts w)
     = (titled "Export Complete" (toasts w) + exports w)%nat /\
     (status (ui w) = completed -> (0 < titled "Processing Complete" (toasts w))%nat) /\
     ((0 < titled "Export Started" (toasts w))%nat ->
      (0 < titled "Processing Complete" (toasts w))%nat)) ->
    (titled "Export Started" (toasts (run w es))
     = (titled "Export Complete" (toasts (run w es)) + exports (run w es))%nat /\
     (status (ui (run w es)) = completed ->
      (0 < titled "Processing Complete" (toasts (run w es)))%nat) /\
     ((0 < titled "Export Started" (toasts (run w es)))%nat ->
      (0 < titled "Processing Complete" (toasts (run w es)))%nat))).
  { clear es. induction es as [| e es IH]; intros w Hw; [exact Hw |].
    cbn [run fold_left]. apply IH. clear IH. destruct Hw as (Hcount & Hdone & Hstarted).
    destruct e as [files | | id r | |]; cbn [step].
    - unfold onDrop, handleVideoUpload. destruct files as [| file ?]; [now repeat split |].
      destruct (startsWith _ _); titles;
        (split; [lia |]); (split; [try discriminate | intros; apply Hstarted; lia]).
      exact Hdone.
    - unfold startEnabled, handleStartProcessing.
      destruct (uploadedVideo (ui w)); [| now repeat split].
      destruct (negb _); [| now repeat split].
      titles. repeat split; try assumption. discriminate.
    - destruct (Loop.lookup id (intervals w)) as [i |]; [| now repeat split].
      unfold tick. destruct (totalFrames <=? frame i + 25); titles.
      + repeat split; intros; lia.
      + repeat split; assumption.
    - destruct (exportEnabled (ui w)) eqn:Henabled; [| now repeat split].
      assert (Hcompleted : status (ui w) = completed).
      { unfold exportEnabled in Henabled.
        destruct (uploadedVideo (ui w)); destruct (status (ui w)); congruence. }
      unfold handleExportVideo. titles. specialize (Hdone Hcompleted).
      repeat split; intros; lia.
    - destruct (exports w) as [| n] eqn:He; [rewrite <- He in Hcount; repeat split; assumption |].
      unfold exportComplete. titles.
      split; [lia |]. split; [exact Hdone | intros; apply Hstarted; lia]. }
  destruct (Hinv es init) as (Hcount & _ & Hstarted).
  - cbn. repeat split; try discriminate; lia.
  - now split.
Qed.

Lemma export_follows_completion_witness :
  titled "Export Started" (toasts (run init Samples.simulated_events)) = 1%nat /\
  (0 < titled "Processing Complete" (toasts (run init Samples.simulated_events)))%nat.
Proof.
  split; [vm_compute; reflexivity |].
  apply (proj2 (export_follows_completion Samples.simulated_events)).
  vm_compute. apply Nat.lt_0_1.
Defined.
End SimulatedFacts.

(* ================================================================== *)
(** ** Well-formed worlds *)

Import Invariants.

Section FreshIds.
Variable A : Type.
Implicit Types (l : list (nat * A)) (id next : nat).

Lemma lookup_In id l (a : A) : lookup id l = Some a -> In (id, a) l.
Proof.
  induction l as [| [i b] l IH]; cbn; [discriminate |].
  destruct (Nat.eqb_spec i id) as [-> | _]; [intros [= ->]; now left | auto].
Qed.

Lemma remove_absent id l : ~ In id (map fst l) -> remove id l = l.
Proof.
  unfold remove. induction l as [| [i b] l IH]; cbn; [reflexivity |].
  intros Hnot. destruct (Nat.eqb_spec i id) as [-> | _]; [tauto |].
  cbn. f_equal. apply IH. tauto.
Qed.

Lemma remove_incl id l e : In e (remove id l) -> In e l.
Proof. unfold remove. intros H. apply filter_In in H. tauto. Qed.

Lemma fresh_ids_remove next id l : fresh_ids next l -> fresh_ids next (remove id l).
Proof.
  intros [Hnodup Hall]. split.
  - unfold remove. induction l as [| [i b] l IH]; cbn; [constructor |].
    inversion Hnodup as [| ? ? Hnotin Hrest]; subst. inversion Hall; subst.
    destruct (Nat.eqb i id); cbn; [auto |].
    constructor; [| auto].
    intros Hin. apply Hnotin. apply in_map_iff in Hin as ([j c] & <- & Hin).
    apply in_map_iff. exists (j, c). split; [reflexivity |].
    apply filter_In in Hin. tauto.
  - apply Forall_forall. intros e He. rewrite Forall_forall in Hall.
    apply Hall. now apply remove_incl with (id := id).
Qed.

Lemma fresh_ids_next next l : fresh_ids next l -> fresh_ids (S next) l.
Proof.
  intros [Hnodup Hall]. split; [exact Hnodup |].
  eapply Forall_impl; [| exact Hall]. cbn. intros; lia.
Qed.

Lemma fresh_ids_cons next l (a : A) : fresh_ids next l -> fresh_ids (S next) ((next, a) :: l).
Proof.
  intros [Hnodup Hall]. split; cbn.
  - constructor; [| exact Hnodup].
    intros Hin. apply in_map_iff in Hin as ([j c] & Hj & Hin). cbn in Hj; subst j.
    rewrite Forall_forall in Hall. specialize (Hall _ Hin). cbn in Hall. lia.
  - constructor; [cbn; lia |]. eapply Forall_impl; [| exact Hall]. cbn. intros; lia.
Qed.

(** Removing the entry of a known id removes exactly that entry. *)
Lemma count_remove (f : nat * A -> bool) next id l (a : A) :
  fresh_ids next l -> lookup id l = Some a ->
  length (filter f l) = ((if f (id, a) then 1 else 0) + length (filter f (remove id l)))%nat.
Proof.
  intros [Hnodup _]. induction l as [| [i b] l IH]; cbn; [discriminate |].
  inversion Hnodup as [| ? ? Hnotin Hrest]; subst.
  destruct (Nat.eqb_spec i id) as [-> | Hne].
  - intros [= ->]. fold (remove id l). rewrite (remove_absent _ _ Hnotin).
    destruct (f (id, a)); reflexivity.
  - intros Hl. unfold remove; cbn.
    destruct (Nat.eqb_spec i id) as [-> | _]; [contradiction |]. cbn.
    fold (remove id l). specialize (IH Hrest Hl).
    destruct (f (i, b)); cbn; lia.
Qed.
End FreshIds.

Create HintDb wf.

#[local] Hint Resolve fresh_ids_remove fresh_ids_next fresh_ids_cons : wf.

Section WellFormed.
Variable w : World.
Hypothesis Hw : well_formed w.

Lemma wf_log o : well_formed (log w o).
Proof. exact Hw. Qed.

Lemma wf_update f : well_formed (update w f).
Proof. exact Hw. Qed.

Lemma wf_fetch r k : well_formed (fetch w r k).
Proof. destruct Hw. split; cbn; auto with wf. Qed.

Lemma wf_settle id : well_formed (settle w id).
Proof. destruct Hw. split; cbn; auto with wf. Qed.

Lemma wf_setTimeout self : well_formed (setTimeout w self).
Proof. destruct Hw. split; cbn; auto with wf. Qed.

Lemma wf_clearTimer id : well_formed (clearTimer w id).
Proof. destruct Hw. split; cbn; auto with wf. Qed.

Lemma wf_elapse ms : well_formed (elapse w ms).
Proof. exact Hw. Qed.

Lemma wf_newPoller : well_formed (newPoller w).
Proof. exact Hw. Qed.

Lemma wf_toast v t d : well_formed (toast v t d w).
Proof. exact Hw. Qed.
End WellFormed.

#[local] Hint Resolve wf_log wf_update wf_fetch wf_settle wf_setTimeout wf_clearTimer
  wf_elapse wf_newPoller wf_toast : wf.

Lemma step_well_formed (e : Event) (w : World) :
  well_formed w -> well_formed (step e w).
Proof.
  intros Hw. destruct e; cbn [step].
  - unfold checkBackend. auto with wf.
  - unfold onDrop, handleVideoUpload. destruct acceptedFiles; [assumption |].
    destruct (startsWith _ _); [destruct (negb _) |]; auto with wf.
  - unfold handleStartProcessing. destruct (startEnabled _); [| assumption].
    destruct (uploadedVideo _); [destruct (negb _) |]; auto with wf.
  - destruct (lookup id (pending w)) as [[] |]; try assumption.
    unfold checkBackend_resume. destruct (Api.healthCheck fetched); auto with wf.
  - destruct (lookup id (pending w)) as [[] |]; try assumption.
    unfold handleVideoUpload_resume. destruct (Api.uploadVideo fetched); auto with wf.
  - destruct (lookup id (pending w)) as [[] |]; try assumption.
    unfold handleStartProcessing_resume, pollProcessingStatus, poll.
    destruct (Api.startProcessing fetched); auto 7 with wf.
  - destruct (lookup id (pending w)) as [[] |]; try assumption.
    unfold poll_resume, onFulfilled, onRejected, getDetections.
    destruct (Api.getProcessingStatus fetched) as [err | s]; [auto 7 with wf |].
    destruct (negb _); auto 7 with wf.
  - destruct (lookup id (pending w)) as [[] |]; try assumption.
    unfold getDetections_resume. destruct (Api.getDetections fetched); auto with wf.
  - auto with wf.
  - destruct (lookup id (timers w)) as [t |]; [| assumption].
    destruct (N.leb _ _); [| assumption]. unfold poll. auto with wf.
Qed.

Lemma run_well_formed (es : list Event) : forall w, well_formed w -> well_formed (run w es).
Proof.
  induction es as [| e es IH]; intros w Hw; [exact Hw |].
  cbn. apply IH. now apply step_well_formed.
Qed.

Lemma init_well_formed : well_formed init.
Proof. repeat split; constructor. Qed.

(* ================================================================== *)
(** ** The phases of a poller *)

Lemma outcomes_snoc (p : nat) (tr : list Obs) (o : Obs) :
  length (outcomes p (tr ++ [o]))
  = (length (outcomes p tr)
     + match o with
       | Resolved q _ | Rejected q _ => if Nat.eqb q p then 1 else 0
       | _ => 0
       end)%nat.
Proof.
  rewrite outcomes_app, length_app. f_equal.
  destruct o; cbn; try reflexivity; destruct (Nat.eqb _ p); reflexivity.
Qed.

Ltac phases :=
  unfold in_flight, sleeping, sleeps in *;
  cbn [pending timers nextPoller trace ui
       log update fetch settle setTimeout clearTimer elapse newPoller toast
       filter length awaits_status sleeps snd fst callback poller_id] in *;
  rewrite ?outcomes_snoc in *.

Lemma step_accounted (e : Event) (w : World) :
  well_formed w -> accounted w -> accounted (step e w).
Proof.
  intros [Hpending Htimers] Hw p. specialize (Hw p).
  destruct e; cbn [step].
  - unfold checkBackend. phases. lia.
  - unfold onDrop, handleVideoUpload. destruct acceptedFiles; [exact Hw |].
    destruct (startsWith _ _); [destruct (negb _) |]; phases; lia.
  - unfold handleStartProcessing. destruct (startEnabled _); [| exact Hw].
    destruct (uploadedVideo _); [destruct (negb _) |]; phases; lia.
  - destruct (lookup id (pending w)) as [[] |] eqn:Hl; try exact Hw.
    pose proof (@count_remove _ (awaits_status p) _ _ _ _ Hpending Hl) as Hcount.
    unfold checkBackend_resume. destruct (Api.healthCheck fetched); phases; lia.
  - destruct (lookup id (pending w)) as [[] |] eqn:Hl; try exact Hw.
    pose proof (@count_remove _ (awaits_status p) _ _ _ _ Hpending Hl) as Hcount.
    unfold handleVideoUpload_resume. destruct (Api.uploadVideo fetched); phases; lia.
  - destruct (lookup id (pending w)) as [[] |] eqn:Hl; try exact Hw.
    pose proof (@count_remove _ (awaits_status p) _ _ _ _ Hpending Hl) as Hcount.
    unfold handleStartProcessing_resume, pollProcessingStatus, poll.
    destruct (Api.startProcessing fetched); phases; [lia |].
    destruct (Nat.eqb_spec (nextPoller w) p); cbn [length]; lia.
  - destruct (lookup id (pending w)) as [[] |] eqn:Hl; try exact Hw.
    pose proof (@count_remove _ (awaits_status p) _ _ _ _ Hpending Hl) as Hcount.
    unfold poll_resume, onFulfilled, onRejected, getDetections.
    destruct (Api.getProcessingStatus fetched) as [err | s];
      [| destruct (negb _)]; phases;
      destruct (Nat.eqb (poller_id self) p); cbn [length] in *; lia.
  - destruct (lookup id (pending w)) as [[] |] eqn:Hl; try exact Hw.
    pose proof (@count_remove _ (awaits_status p) _ _ _ _ Hpending Hl) as Hcount.
    unfold getDetections_resume. destruct (Api.getDetections fetched); phases; lia.
  - exact Hw.
  - destruct (lookup id (timers w)) as [t |] eqn:Hl; [| exact Hw].
    destruct (N.leb _ _); [| exact Hw].
    pose proof (@count_remove _ (sleeps p) _ _ _ _ Htimers Hl) as Hcount.
    unfold poll. phases.
    destruct (Nat.eqb (poller_id (callback t)) p); cbn [length] in *; lia.
Qed.

Lemma run_accounted (es : list Event) : forall w,
  well_formed w -> accounted w -> well_formed (run w es) /\ accounted (run w es).
Proof.
  induction es as [| e es IH]; intros w Hwf Hacc; [now split |].
  cbn. apply IH; [now apply step_well_formed | now apply step_accounted].
Qed.

Lemma init_accounted : accounted init.
Proof. intros p. cbn. lia. Qed.

Lemma created_poller_phase (es : list Event) (p : nat) :
  (p < nextPoller (run init es))%nat ->
  (length (outcomes p (trace (run init es)))
   + in_flight p (run init es) + sleeping p (run init es) = 1)%nat.
Proof.
  intros Hp.
  destruct (run_accounted es init_well_formed init_accounted) as [_ Hacc].
  now apply (Hacc p).
Qed.

(** X9: whatever happens from the initial state on, every poller that was
    created is in exactly one phase: one status request in flight, or one
    timer pending, or its promise settled exactly once.  So no promise is
    settled twice and no poller stops polling before its promise is
    settled.  A poller that was not created has none of these. *)
Theorem poller_phases (es : list Event) (p : nat) :
  (length (outcomes p (trace (run init es)))
   + in_flight p (run init es) + sleeping p (run init es)
   = if p <? nextPoller (run init es) then 1 else 0)%nat.
Proof.
  destruct (run_accounted es init_well_formed init_accounted) as [_ Hacc].
  destruct (Hacc p) as [Hcreated Hnot].
  destruct (Nat.ltb_spec p (nextPoller (run init es))); auto.
Qed.

(** A request of the poller [p] in flight is counted. *)
Lemma lookup_in_flight (w : World) (id : nat) (self : Poller) :
  lookup id (pending w) = Some (poll_await self) ->
  (0 < in_flight (poller_id self) w)%nat.
Proof.
  intros Hl. unfold in_flight.
  pose proof (@count_remove_lt _ (awaits_status (poller_id self)) id _ (pending w) Hl) as H.
  cbn in H. rewrite Nat.eqb_refl in H. specialize (H eq_refl). lia.
Qed.

Ltac handlers :=
  unfold checkBackend, checkBackend_resume, onDrop, handleVideoUpload,
    handleVideoUpload_resume, handleStartProcessing, handleStartProcessing_resume,
    pollProcessingStatus, poll, poll_resume, onFulfilled, onRejected, getDetections,
    getDetections_resume.

(** A step tells the observer and the promise of [p] nothing while [p] has
    no request in flight. *)
Ltac quiet :=
  unfold snapshots, outcomes; cbn; rewrite ?flat_map_app; cbn;
  repeat match goal with
         | H : Nat.eqb _ _ = false |- _ => rewrite H
         end;
  cbn; rewrite ?app_nil_r; split; reflexivity.

Lemma step_silent (e : Event) (w : World) (p : nat) :
  in_flight p w = 0%nat ->
  snapshots p (trace (step e w)) = snapshots p (trace w) /\
  outcomes p (trace (step e w)) = outcomes p (trace w).
Proof.
  intros Hp. destruct e; cbn [step].
  - handlers. quiet.
  - handlers. destruct acceptedFiles; [now split |].
    destruct (startsWith _ _); [destruct (negb _) |]; quiet.
  - handlers. destruct (startEnabled _); [| now split].
    destruct (uploadedVideo _); [destruct (negb _) |]; quiet.
  - destruct (lookup id (pending w)) as [[] |]; try now split.
    handlers. destruct (Api.healthCheck fetched); quiet.
  - destruct (lookup id (pending w)) as [[] |]; try now split.
    handlers. destruct (Api.uploadVideo fetched); quiet.
  - destruct (lookup id (pending w)) as [[] |]; try now split.
    handlers. destruct (Api.startProcessing fetched); quiet.
  - destruct (lookup id (pending w)) as [[] |] eqn:Hl; try now split.
    pose proof (lookup_in_flight _ _ Hl) as Hself.
    assert (Hne : Nat.eqb (poller_id self) p = false).
    { apply Nat.eqb_neq. intros Heq. rewrite Heq in Hself. lia. }
    handlers. destruct (Api.getProcessingStatus fetched) as [err | s];
      [| destruct (negb _)]; quiet.
  - destruct (lookup id (pending w)) as [[] |]; try now split.
    handlers. destruct (Api.getDetections fetched); quiet.
  - now split.
  - destruct (lookup id (timers w)) as [t |]; [| now split].
    destruct (N.leb _ _); [| now split].
    handlers. quiet.
Qed.

Lemma loop_run_app (w : World) (es1 es2 : list Event) :
  run w (es1 ++ es2) = run (run w es1) es2.
Proof. apply fold_left_app. Qed.

(** X10: once the promise of a poller is settled, its observer is never
    called again and its promise is not settled again, whatever happens
    afterwards. *)
Theorem settled_poller_is_silent (es more : list Event) (p : nat) :
  outcomes p (trace (run init es)) <> [] ->
  snapshots p (trace (run init (es ++ more))) = snapshots p (trace (run init es)) /\
  outcomes p (trace (run init (es ++ more))) = outcomes p (trace (run init es)).
Proof.
  rewrite loop_run_app.
  destruct (run_accounted es init_well_formed init_accounted) as [Hwf Hacc].
  generalize dependent (run init es). clear es.
  induction more as [| e more IH]; intros w Hwf Hacc Hsettled; [now split |].
  assert (Hidle : in_flight p w = 0%nat).
  { destruct (Hacc p) as [Hin Hout].
    destruct (outcomes p (trace w)) eqn:Ho; [contradiction |]. cbn [length] in *.
    destruct (Nat.lt_ge_cases p (nextPoller w)) as [Hlt | Hge];
      [specialize (Hin Hlt) | specialize (Hout Hge)]; lia. }
  destruct (@step_silent e w p Hidle) as [Hsnap Hout].
  cbn [run fold_left].
  destruct (IH (step e w)) as [Hsnap' Hout'].
  - now apply step_well_formed.
  - now apply step_accounted.
  - now rewrite Hout.
  - unfold run in *. rewrite Hsnap', Hout'. now split.
Qed.

Lemma settled_poller_is_silent_witness :
  snapshots 0 (trace (run init (Samples.completed_events ++ Samples.late_events)))
  = snapshots 0 (trace (run init Samples.completed_events)) /\
  outcomes 0 (trace (run init (Samples.completed_events ++ Samples.late_events)))
  = outcomes 0 (trace (run init Samples.completed_events)).
Proof.
  apply (@settled_poller_is_silent Samples.completed_events Samples.late_events 0).
  discriminate.
Defined.

(* ================================================================== *)
(** ** One summary request per resolved promise *)

Lemma detection_requests_snoc (tr : list Obs) (o : Obs) :
  detection_requests (tr ++ [o])
  = (detection_requests tr
     + match o with Sent _ GET_detections => 1 | _ => 0 end)%nat.
Proof.
  unfold detection_requests. rewrite sent_app, filter_app, length_app. f_equal.
  destruct o as [? [] | | | | | |]; reflexivity.
Qed.

Lemma resolutions_snoc (tr : list Obs) (o : Obs) :
  resolutions (tr ++ [o])
  = (resolutions tr + match o with Resolved _ _ => 1 | _ => 0 end)%nat.
Proof.
  unfold resolutions. rewrite flat_map_app, length_app. f_equal.
  destruct o; reflexivity.
Qed.

(** X11: the detection summary is requested exactly once for every promise
    of a poller that is resolved, and never otherwise: at any time the
    [GET /detections] requests sent are as many as the promises resolved. *)
Theorem summary_requested_once_per_resolution (es : list Event) :
  detection_requests (trace (run init es)) = resolutions (trace (run init es)).
Proof.
  assert (Hstep : forall e w,
    detection_requests (trace w) = resolutions (trace w) ->
    detection_requests (trace (step e w)) = resolutions (trace (step e w))).
  { intros e w Hw. destruct e; cbn [step]; handlers.
    - cbn [trace fetch]. rewrite detection_requests_snoc, resolutions_snoc. lia.
    - destruct acceptedFiles; [exact Hw |].
      destruct (startsWith _ _); [destruct (negb _) |];
        cbn [trace fetch toast log];
        rewrite ?detection_requests_snoc, ?resolutions_snoc; lia.
    - destruct (startEnabled _); [| exact Hw].
      destruct (uploadedVideo _); [destruct (negb _) |];
        cbn [trace fetch toast log];
        rewrite ?detection_requests_snoc, ?resolutions_snoc; lia.
    - destruct (lookup id (pending w)) as [[] |]; try exact Hw.
      destruct (Api.healthCheck fetched);
        cbn [trace fetch toast log update settle];
        rewrite ?detection_requests_snoc, ?resolutions_snoc; lia.
    - destruct (lookup id (pending w)) as [[] |]; try exact Hw.
      destruct (Api.uploadVideo fetched);
        cbn [trace fetch toast log update settle];
        rewrite ?detection_requests_snoc, ?resolutions_snoc; lia.
    - destruct (lookup id (pending w)) as [[] |]; try exact Hw.
      destruct (Api.startProcessing fetched);
        cbn [trace fetch toast log update settle newPoller];
        rewrite ?detection_requests_snoc, ?resolutions_snoc; lia.
    - destruct (lookup id (pending w)) as [[] |]; try exact Hw.
      destruct (Api.getProcessingStatus fetched) as [err | s];
        [| destruct (negb _)];
        cbn [trace fetch toast log update settle setTimeout];
        rewrite ?detection_requests_snoc, ?resolutions_snoc; lia.
    - destruct (lookup id (pending w)) as [[] |]; try exact Hw.
      destruct (Api.getDetections fetched);
        cbn [trace fetch toast log update settle];
        rewrite ?detection_requests_snoc, ?resolutions_snoc; lia.
    - exact Hw.
    - destruct (lookup id (timers w)) as [t |]; [| exact Hw].
      destruct (N.leb _ _); [| exact Hw].
      cbn [trace fetch clearTimer].
      rewrite ?detection_requests_snoc, ?resolutions_snoc; lia. }
  assert (Hrun : forall es w,
    detection_requests (trace w) = resolutions (trace w) ->
    detection_requests (trace (run w es)) = resolutions (trace (run w es))).
  { clear es. induction es as [| e es IH]; intros w Hw; [exact Hw |].
    cbn. apply IH, Hstep, Hw. }
  apply Hrun. reflexivity.
Qed.

(* ================================================================== *)
(** ** The processing flag *)

Lemma onProgress_keeps (t : Z) (s : Api.ProcessingStatus) (d : State) :
  uploadedVideo (onProgress t s d) = uploadedVideo d /\
  isProcessing (onProgress t s d) = isProcessing d /\
  status (onProgress t s d) = status d /\
  totalFrames (onProgress t s d) = totalFrames d /\
  detectionSummary (onProgress t s d) = detectionSummary d /\
  backendConnected (onProgress t s d) = backendConnected d.
Proof. unfold onProgress. destruct (0 <? t); repeat split. Qed.

Ltac ui_fields :=
  cbn [ui fetch toast log update settle setTimeout clearTimer elapse newPoller
       status isProcessing uploadedVideo totalFrames currentFrame
       setUploadedVideo setVideoUrl setIsProcessing setProgress setCurrentFrame
       setTotalFrames setDetectedTargets setStatus setDetectionSummary
       setBackendConnected] in *.

(** X12: whenever the dashboard shows the status [processing], the
    processing flag is set (and with it the start button is disabled). *)
Theorem processing_status_implies_flag (es : list Event) :
  status (ui (run init es)) = processing -> isProcessing (ui (run init es)) = true.
Proof.
  assert (Hstep : forall e w,
    (status (ui w) = processing -> isProcessing (ui w) = true) ->
    status (ui (step e w)) = processing -> isProcessing (ui (step e w)) = true).
  { intros e w Hw. destruct e; cbn [step]; handlers.
    - exact Hw.
    - destruct acceptedFiles; [exact Hw |].
      destruct (startsWith _ _); [destruct (negb _) |]; exact Hw.
    - destruct (startEnabled _); [| exact Hw].
      destruct (uploadedVideo _); [destruct (negb _) |]; exact Hw.
    - destruct (lookup id (pending w)) as [[] |]; try exact Hw.
      destruct (Api.healthCheck fetched); exact Hw.
    - destruct (lookup id (pending w)) as [[] |]; try exact Hw.
      destruct (Api.uploadVideo fetched); ui_fields; [exact Hw | discriminate].
    - destruct (lookup id (pending w)) as [[] |]; try exact Hw.
      destruct (Api.startProcessing fetched); ui_fields; [exact Hw | reflexivity].
    - destruct (lookup id (pending w)) as [[] |]; try exact Hw.
      destruct (Api.getProcessingStatus fetched) as [err | s];
        [| destruct (negb _)]; ui_fields; try discriminate.
      destruct (onProgress_keeps (observer_totalFrames self) s (ui w))
        as (_ & -> & -> & _). exact Hw.
    - destruct (lookup id (pending w)) as [[] |]; try exact Hw.
      destruct (Api.getDetections fetched); exact Hw.
    - exact Hw.
    - destruct (lookup id (timers w)) as [t |]; [| exact Hw].
      destruct (N.leb _ _); exact Hw. }
  assert (Hrun : forall es w,
    (status (ui w) = processing -> isProcessing (ui w) = true) ->
    status (ui (run w es)) = processing -> isProcessing (ui (run w es)) = true).
  { clear es. induction es as [| e es IH]; intros w Hw; [exact Hw |].
    cbn. apply IH, Hstep, Hw. }
  apply Hrun. discriminate.
Qed.

Lemma processing_status_implies_flag_witness :
  isProcessing (ui (run init Samples.start_events)) = true.
Proof. apply processing_status_implies_flag. reflexivity. Defined.

Ltac same_outcomes Hout :=
  unfold outcomes in *; cbn; rewrite ?flat_map_app; cbn; rewrite ?app_nil_r; exact Hout.

(** X13: the processing flag is never left on with nothing polling:
    whenever it is set, some poller has a status request in flight or a
    timer pending. *)
Theorem processing_flag_has_live_poller (es : list Event) :
  isProcessing (ui (run init es)) = true ->
  exists p, (in_flight p (run init es) + sleeping p (run init es) = 1)%nat.
Proof.
  assert (Hstep : forall e w,
    accounted w ->
    (isProcessing (ui w) = true ->
     exists p, (p < nextPoller w)%nat /\ outcomes p (trace w) = []) ->
    isProcessing (ui (step e w)) = true ->
    exists p, (p < nextPoller (step e w))%nat /\ outcomes p (trace (step e w)) = []).
  { intros e w Hacc Hw. destruct e; cbn [step]; handlers.
    - intros Hp. destruct (Hw Hp) as (p & Hlt & Hout). exists p.
      split; [exact Hlt | same_outcomes Hout].
    - destruct acceptedFiles; [exact Hw |].
      destruct (startsWith _ _); [destruct (negb _) |];
        intros Hp; destruct (Hw Hp) as (p & Hlt & Hout); exists p;
        (split; [exact Hlt | same_outcomes Hout]).
    - destruct (startEnabled _); [| exact Hw].
      destruct (uploadedVideo _); [destruct (negb _) |];
        intros Hp; destruct (Hw Hp) as (p & Hlt & Hout); exists p;
        (split; [exact Hlt | same_outcomes Hout]).
    - destruct (lookup id (pending w)) as [[] |]; try exact Hw.
      destruct (Api.healthCheck fetched);
        intros Hp; destruct (Hw Hp) as (p & Hlt & Hout); exists p;
        (split; [exact Hlt | same_outcomes Hout]).
    - destruct (lookup id (pending w)) as [[] |]; try exact Hw.
      destruct (Api.uploadVideo fetched);
        intros Hp; destruct (Hw Hp) as (p & Hlt & Hout); exists p;
        (split; [exact Hlt | same_outcomes Hout]).
    - destruct (lookup id (pending w)) as [[] |]; try exact Hw.
      destruct (Api.startProcessing fetched).
      + intros Hp; destruct (Hw Hp) as (p & Hlt & Hout); exists p.
        split; [exact Hlt | same_outcomes Hout].
      + intros _. exists (nextPoller w). split; [cbn; lia |].
        destruct (Hacc (nextPoller w)) as [_ Hnone]. specialize (Hnone (le_n _)).
        assert (Hout : outcomes (nextPoller w) (trace w) = []).
        { destruct (outcomes (nextPoller w) (trace w)); [reflexivity | cbn in Hnone; lia]. }
        same_outcomes Hout.
    - destruct (lookup id (pending w)) as [[] |]; try exact Hw.
      destruct (Api.getProcessingStatus fetched) as [err | s];
        [| destruct (negb _)]; ui_fields; try discriminate.
      destruct (onProgress_keeps (observer_totalFrames self) s (ui w)) as (_ & -> & _).
      intros Hp; destruct (Hw Hp) as (p & Hlt & Hout); exists p.
      split; [exact Hlt | same_outcomes Hout].
    - destruct (lookup id (pending w)) as [[] |]; try exact Hw.
      destruct (Api.getDetections fetched);
        intros Hp; destruct (Hw Hp) as (p & Hlt & Hout); exists p;
        (split; [exact Hlt | same_outcomes Hout]).
    - exact Hw.
    - destruct (lookup id (timers w)) as [t |]; [| exact Hw].
      destruct (N.leb _ _); [| exact Hw].
      intros Hp; destruct (Hw Hp) as (p & Hlt & Hout); exists p.
      split; [exact Hlt | same_outcomes Hout]. }
  assert (Hrun : forall es w,
    well_formed w -> accounted w ->
    (isProcessing (ui w) = true ->
     exists p, (p < nextPoller w)%nat /\ outcomes p (trace w) = []) ->
    isProcessing (ui (run w es)) = true ->
    exists p, (p < nextPoller (run w es))%nat /\ outcomes p (trace (run w es)) = []).
  { clear es. induction es as [| e es IH]; intros w Hwf Hacc Hw; [exact Hw |].
    cbn. apply IH; [now apply step_well_formed | now apply step_accounted |].
    now apply Hstep. }
  intros Hproc.
  destruct (Hrun es init init_well_formed init_accounted) as (p & Hlt & Hout);
    [discriminate | exact Hproc |].
  exists p. pose proof (created_poller_phase es Hlt) as Hphase.
  rewrite Hout in Hphase. exact Hphase.
Qed.

Lemma processing_flag_has_live_poller_witness :
  exists p, (in_flight p (run init Samples.start_events)
             + sleeping p (run init Samples.start_events) = 1)%nat.
Proof. apply processing_flag_has_live_poller. reflexivity. Defined.

(* ================================================================== *)
(** ** The frame count before the first summary *)

Lemma Forall_remove (A : Type) (P : nat * A -> Prop) (id : nat) (l : list (nat * A)) :
  Forall P l -> Forall P (remove id l).
Proof.
  intros H. apply Forall_forall. intros e He. rewrite Forall_forall in H.
  apply H. now apply remove_incl with (id := id).
Qed.

Lemma Forall_lookup (A : Type) (P : nat * A -> Prop) (id : nat) (a : A) (l : list (nat * A)) :
  Forall P l -> lookup id l = Some a -> P (id, a).
Proof. intros H Hl. rewrite Forall_forall in H. apply H. now apply lookup_In. Qed.

Lemma step_no_frame_count (e : Event) (w : World) :
  delivers_summary e = false -> no_frame_count w -> no_frame_count (step e w).
Proof.
  intros He (Htotal & Hcurrent & Hpending & Htimers).
  unfold no_frame_count. destruct e; cbn [step]; handlers.
  - ui_fields. cbn. repeat split; auto.
  - destruct acceptedFiles; [now repeat split |].
    destruct (startsWith _ _); [destruct (negb _) |]; cbn; repeat split; auto.
  - destruct (startEnabled _); [| now repeat split].
    destruct (uploadedVideo _); [destruct (negb _) |]; cbn; repeat split; auto.
  - destruct (lookup id (pending w)) as [[] |]; try now repeat split.
    destruct (Api.healthCheck fetched); cbn; repeat split; auto using Forall_remove.
  - destruct (lookup id (pending w)) as [[] |]; try now repeat split.
    destruct (Api.uploadVideo fetched); cbn; repeat split; auto using Forall_remove.
  - destruct (lookup id (pending w)) as [[] |] eqn:Hl; try now repeat split.
    pose proof (Forall_lookup _ Hpending Hl) as Hcaptured. cbn in Hcaptured.
    destruct (Api.startProcessing fetched); cbn; repeat split; auto using Forall_remove.
  - destruct (lookup id (pending w)) as [[] |] eqn:Hl; try now repeat split.
    pose proof (Forall_lookup _ Hpending Hl) as Hcaptured. cbn in Hcaptured.
    unfold onProgress. rewrite Hcaptured. cbn [Z.ltb Z.compare].
    destruct (Api.getProcessingStatus fetched) as [err | s];
      [| destruct (negb _)]; cbn; repeat split; auto using Forall_remove.
  - unfold delivers_summary in He.
    destruct (lookup id (pending w)) as [[] |]; try now repeat split.
    destruct (Api.getDetections fetched); [| discriminate He].
    cbn; repeat split; auto using Forall_remove.
  - now repeat split.
  - destruct (lookup id (timers w)) as [t |] eqn:Hl; [| now repeat split].
    pose proof (Forall_lookup _ Htimers Hl) as Hcaptured. cbn in Hcaptured.
    destruct (N.leb _ _); [| now repeat split].
    cbn; repeat split; auto using Forall_remove.
Qed.

(** X14: until a detection summary has arrived, the total frame count is
    0 and the current frame shown stays 0, whatever progress the backend
    reports: the observer of a job uses the frame count known when the job
    was started. *)
Theorem frame_counter_idle_before_first_summary (es : list Event) :
  existsb delivers_summary es = false ->
  currentFrame (ui (run init es)) = 0 /\ totalFrames (ui (run init es)) = 0.
Proof.
  assert (Hrun : forall es w,
    existsb delivers_summary es = false -> no_frame_count w -> no_frame_count (run w es)).
  { clear es. induction es as [| e es IH]; intros w Hes Hw; [exact Hw |].
    cbn in Hes. apply orb_false_iff in Hes as [He Hes].
    cbn. apply IH; [exact Hes |]. now apply step_no_frame_count. }
  intros Hes.
  destruct (Hrun es init Hes) as (Htotal & Hcurrent & _).
  - repeat split; constructor.
  - now split.
Qed.

Lemma frame_counter_idle_before_first_summary_witness :
  progress (ui (run init Samples.halfway_events)) = 55%Q /\
  currentFrame (ui (run init Samples.halfway_events)) = 0 /\
  totalFrames (ui (run init Samples.halfway_events)) = 0.
Proof.
  split; [reflexivity |].
  apply frame_counter_idle_before_first_summary. reflexivity.
Defined.

(* ================================================================== *)
(** ** Failed requests and rejected drops *)

(** X15: a failed upload, a failed start and a failed fetch of the summary
    leave the whole dashboard state as it was; they send nothing, start no
    poller and touch no timer, and what they notify is destructive. *)
Theorem failed_request_keeps_state (e : Event) (w : World) :
  failed_request e = true ->
  ui (step e w) = ui w /\
  sent (trace (step e w)) = sent (trace w) /\
  timers (step e w) = timers w /\
  nextPoller (step e w) = nextPoller w /\
  exists ts, toasts (trace (step e w)) = toasts (trace w) ++ ts /\
             Forall (fun t => variant t = destructive) ts.
Proof.
  intros He. destruct e; try discriminate He; unfold failed_request in He; cbn [step].
  - destruct (lookup id (pending w)) as [[] |];
      try (repeat split; exists []; now rewrite app_nil_r).
    destruct (Api.uploadVideo fetched); [| discriminate He].
    unfold handleVideoUpload_resume, toast, log, settle; cbn.
    rewrite !sent_app, !toasts_app; cbn. rewrite !app_nil_r.
    repeat split. eexists. split; [reflexivity |]. now repeat constructor.
  - destruct (lookup id (pending w)) as [[] |];
      try (repeat split; exists []; now rewrite app_nil_r).
    destruct (Api.startProcessing fetched); [| discriminate He].
    unfold handleStartProcessing_resume, toast, log, settle; cbn.
    rewrite !sent_app, !toasts_app; cbn. rewrite !app_nil_r.
    repeat split. eexists. split; [reflexivity |]. now repeat constructor.
  - destruct (lookup id (pending w)) as [[] |];
      try (repeat split; exists []; now rewrite app_nil_r).
    destruct (Api.getDetections fetched); [| discriminate He].
    unfold getDetections_resume, log, settle; cbn.
    rewrite !sent_app, !toasts_app; cbn. rewrite !app_nil_r.
    repeat split. exists []. now rewrite app_nil_r.
Qed.

Lemma failed_request_keeps_state_witness :
  ui (step (UploadSettles 1 Scenario.offline) Samples.uploading) = ui Samples.uploading /\
  sent (trace (step (UploadSettles 1 Scenario.offline) Samples.uploading))
  = sent (trace Samples.uploading) /\
  timers (step (UploadSettles 1 Scenario.offline) Samples.uploading)
  = timers Samples.uploading /\
  nextPoller (step (UploadSettles 1 Scenario.offline) Samples.uploading)
  = nextPoller Samples.uploading /\
  exists ts,
    toasts (trace (step (UploadSettles 1 Scenario.offline) Samples.uploading))
    = toasts (trace Samples.uploading) ++ ts /\
    Forall (fun t => variant t = destructive) ts.
Proof.
  apply (@failed_request_keeps_state (UploadSettles 1 Scenario.offline) Samples.uploading).
  reflexivity.
Defined.

(** X16: [onDrop] announces every dropped video as "Video Uploaded" at the
    moment of the drop, before any answer of the backend and without
    changing the state; while the backend is not connected this is so
    although no request was sent. *)
Theorem onDrop_announces_upload (w : World) (file : File) (rest : list File) :
  startsWith (type file) "video/" = true ->
  last (toasts (trace (step (Drop (file :: rest)) w)))
       {| variant := destructive; title := EmptyString; description := EmptyString |}
  = {| variant := default; title := "Video Uploaded";
       description := name file ++ " ready for processing" |} /\
  ui (step (Drop (file :: rest)) w) = ui w /\
  (backendConnected (ui w) = false ->
   sent (trace (step (Drop (file :: rest)) w)) = sent (trace w) /\
   pending (step (Drop (file :: rest)) w) = pending w).
Proof.
  intros Hvideo. cbn [step onDrop]. rewrite Hvideo.
  unfold handleVideoUpload, toast, log, fetch.
  destruct (backendConnected (ui w)); cbn;
    rewrite !toasts_app, ?sent_app; cbn; rewrite ?app_nil_r, last_last;
    repeat split; discriminate.
Qed.

Lemma onDrop_announces_upload_witness :
  last (toasts (trace (step (Drop [Scenario.clip]) init)))
       {| variant := destructive; title := EmptyString; description := EmptyString |}
  = {| variant := default; title := "Video Uploaded";
       description := "walk.mp4 ready for processing" |} /\
  ui (step (Drop [Scenario.clip]) init) = ui init /\
  (backendConnected (ui init) = false ->
   sent (trace (step (Drop [Scenario.clip]) init)) = sent (trace init) /\
   pending (step (Drop [Scenario.clip]) init) = pending init).
Proof. apply (@onDrop_announces_upload init Scenario.clip []). reflexivity. Defined.

(* ================================================================== *)
(** ** More on the API client *)

Lemma apiRequest_failure_cases (T : Type) (fetched : Api.Fetched T) (e : Api.Thrown) :
  Api.apiRequest fetched = inl e ->
  (exists response body,
      fetched = inr response /\ Api.ok response = false /\
      Api.text response = inr body /\
      e = Api.ApiError (Api.status response)
            (or_else body ("HTTP " ++ show_N (Api.status response))%string))
  \/
  (exists f, True /\
      e = Api.ApiError 0 ("Network error: " ++ Api.foreign_message f "Unknown error")%string).
Proof.
  unfold Api.apiRequest.
  destruct fetched as [f | response]; cbn.
  - intros [= <-]. right. now exists f.
  - destruct (Api.ok response) eqn:Hok; cbn.
    + destruct (Api.json response) as [f | v]; cbn; [| discriminate].
      intros [= <-]. right. now exists f.
    + destruct (Api.text response) as [f | body] eqn:Htext; cbn.
      * intros [= <-]. right. now exists f.
      * intros [= <-]. left. now exists response, body.
Qed.

(** X1: [apiRequest] succeeds exactly when the request got a 2xx response
    whose body parses, and then returns the parsed body. *)
Theorem apiRequest_succeeds_iff (T : Type) (fetched : Api.Fetched T) (v : T) :
  Api.apiRequest fetched = inr v <->
  exists response, fetched = inr response /\ Api.ok response = true /\
                   Api.json response = inr v.
Proof.
  unfold Api.apiRequest. split.
  - destruct fetched as [f | response]; cbn; [discriminate |].
    destruct (Api.ok response) eqn:Hok; cbn.
    + destruct (Api.json response) as [f | v'] eqn:Hjson; cbn; [discriminate |].
      intros [= ->]. now exists response.
    + destruct (Api.text response); cbn; discriminate.
  - intros (response & -> & Hok & Hjson). cbn. rewrite Hok; cbn. now rewrite Hjson.
Qed.

Lemma apiRequest_succeeds_iff_witness :
  Api.apiRequest (Api.ok_json "{..}" 7) = inr 7.
Proof.
  apply apiRequest_succeeds_iff. eexists. repeat split.
Defined.

Lemma or_else_not_empty (a b : string) : b <> EmptyString -> or_else a b <> EmptyString.
Proof. destruct a; cbn; [auto | discriminate]. Qed.

(** X2: an [ApiError] thrown by [apiRequest] never carries a 2xx status and
    never an empty message. *)
Theorem ApiError_is_never_a_success (T : Type) (fetched : Api.Fetched T)
    (st : N) (message : string) :
  Api.apiRequest fetched = inl (Api.ApiError st message) ->
  ((200 <=? st) && (st <=? 299))%N = false /\ message <> EmptyString.
Proof.
  intros H. destruct (@apiRequest_failure_cases _ _ _ H) as
    [(response & body & -> & Hok & _ & [= -> ->]) | (f & _ & [= -> ->])].
  - split; [exact Hok |]. apply or_else_not_empty. discriminate.
  - split; [reflexivity | discriminate].
Qed.

Lemma ApiError_is_never_a_success_witness :
  ((200 <=? 503) && (503 <=? 299))%N = false /\ "busy"%string <> EmptyString.
Proof. exact (@ApiError_is_never_a_success _ Api.Fetched_503 503%N "busy" eq_refl). Defined.

(** X3: [uploadVideo], which does not go through [apiRequest], succeeds on
    exactly the answers on which [apiRequest] would, with the same value;
    when it throws an [ApiError], [apiRequest] would throw one with the
    same status; and when it throws what the platform threw, [apiRequest]
    would have wrapped that into the "Network error" [ApiError]. *)
Theorem uploadVideo_agrees_with_apiRequest (fetched : Api.Fetched Api.Uploaded) :
  (forall v, Api.uploadVideo fetched = inr v <-> Api.apiRequest fetched = inr v) /\
  (forall st message,
      Api.uploadVideo fetched = inl (Api.ApiError st message) ->
      exists message', Api.apiRequest fetched = inl (Api.ApiError st message')) /\
  (forall f,
      Api.uploadVideo fetched = inl (Api.Platform f) ->
      Api.apiRequest fetched
      = inl (Api.ApiError 0 ("Network error: " ++ Api.foreign_message f "Unknown error")%string)).
Proof.
  unfold Api.uploadVideo, Api.apiRequest.
  destruct fetched as [f | response]; cbn.
  - repeat split; try discriminate. now intros f' [= ->].
  - destruct (Api.ok response); cbn.
    + destruct (Api.json response) as [f | v]; cbn;
        repeat split; try discriminate; try tauto. now intros f' [= ->].
    + destruct (Api.text response) as [f | body]; cbn;
        repeat split; try discriminate.
      * now intros f' [= ->].
      * intros st message [= -> _]. eexists. reflexivity.
Qed.

Lemma uploadVideo_agrees_with_apiRequest_witness :
  Api.apiRequest (T:=Api.Uploaded) Scenario.offline
  = inl (Api.ApiError 0 "Network error: Failed to fetch").
Proof.
  apply (proj2 (proj2 (uploadVideo_agrees_with_apiRequest Scenario.offline))
           (Api.ErrorObject "Failed to fetch")).
  reflexivity.
Defined.
